(** * Guardian360 micro API: a shallow embedding of [src/index.js]

    The service exposes four read-only endpoints.  Each one fetches one
    upstream document, adapts it into a list of normalized risk items and
    answers with a JSON array; every failure inside the handler's [try]
    block is caught and answered with the empty array.

    Modelling conventions.
    - JavaScript values are the inductive [JsVal]; numbers occurring in
      upstream documents are integers ([Z]); [NaN] results of [parseInt] and
      of the [Date] constructor are modelled by [None].
    - JavaScript strings are Rocq strings.  The model is exact on ASCII
      text; other characters are carried as their UTF-8 bytes and are left
      alone by [toLowerCase].
    - A computation that may throw returns a [Result]; the handler's
      [try { ... } catch (e) { res.json([]) }] is [try_catch].
    - The network, the XML parser, [Date.parse] and the clock are outside
      the program: the upstream outcome is an argument of each handler, and
      [parseXml], [Date_parse] and the clock reading are parameters.  A
      handler maps its records synchronously; the model gives it one clock
      reading per request. *)

From Stdlib Require Import ZArith List String Ascii Bool Lia DecimalString
  DecimalPos.
Import ListNotations.
Local Open Scope string_scope.
Local Open Scope Z_scope.

(** ** Exceptions and the error monad *)

Inductive Exn : Type :=
| TypeError            (* property of null/undefined, "x is not a function" *)
| RangeError           (* Invalid time value *)
| SyntaxError          (* malformed JSON or XML *)
| FetchError           (* the network request itself failed *)
| AbortError           (* the 10 s timer aborted the request *)
| HttpError (status : Z). (* [!res.ok] *)

Inductive Result (A : Type) : Type :=
| Ok (a : A)
| Throw (e : Exn).
Arguments Ok {A} a.
Arguments Throw {A} e.

Definition bind {A B : Type} (r : Result A) (k : A -> Result B) : Result B :=
  match r with
  | Ok a => k a
  | Throw e => Throw e
  end.

Notation "x <- c ;; k" := (bind c (fun x => k))
  (at level 61, c at next level, right associativity).

(** [Array.prototype.map] / [filter] with a callback that may throw: the
    first exception aborts the traversal. *)
Fixpoint mapM {A B : Type} (f : A -> Result B) (l : list A) : Result (list B) :=
  match l with
  | [] => Ok []
  | x :: t => y <- f x ;; ys <- mapM f t ;; Ok (y :: ys)
  end.

Fixpoint filterM {A : Type} (p : A -> Result bool) (l : list A) : Result (list A) :=
  match l with
  | [] => Ok []
  | x :: t => b <- p x ;; r <- filterM p t ;; Ok (if b then x :: r else r)
  end.

(** ** JavaScript values *)

#[warnings="-register-all"]
Inductive JsVal : Type :=
| JUndefined
| JNull
| JBool (b : bool)
| JNum (n : Z)
| JStr (s : string)
| JArr (elems : list JsVal)
| JObj (fields : list (string * JsVal)).

(** Truthiness, as used by [||] and the conditional operator. *)
Definition truthy (v : JsVal) : bool :=
  match v with
  | JUndefined | JNull => false
  | JBool b => b
  | JNum n => negb (n =? 0)
  | JStr s => negb (String.eqb s "")
  | JArr _ | JObj _ => true
  end.

Definition nullish (v : JsVal) : bool :=
  match v with
  | JUndefined | JNull => true
  | _ => false
  end.

(** [a || b] *)
Definition js_or (a b : JsVal) : JsVal := if truthy a then a else b.

(** [a ?? b] *)
Definition js_coalesce (a b : JsVal) : JsVal := if nullish a then b else a.

(** [a || b] where evaluating [b] may throw. *)
Definition js_or_else (a : JsVal) (b : Result JsVal) : Result JsVal :=
  if truthy a then Ok a else b.

Fixpoint lookup (k : string) (fields : list (string * JsVal)) : JsVal :=
  match fields with
  | [] => JUndefined
  | (k', v) :: rest => if String.eqb k k' then v else lookup k rest
  end.

(** Property read on a value that is neither [null] nor [undefined].  The
    handlers read named properties and the index [0] only.  A string has the
    index [0] (its first character); of the names the handlers read, a
    string has only [link], a method, and the handlers read nothing but the
    index [0] of it, which is [undefined] as here.  Arrays, numbers and
    booleans have none of the names. *)
Definition prop (v : JsVal) (k : string) : JsVal :=
  match v with
  | JObj fields => lookup k fields
  | JArr elems =>
      if String.eqb k "0" then nth 0 elems JUndefined else JUndefined
  | JStr (String c _) =>
      if String.eqb k "0" then JStr (String c "") else JUndefined
  | _ => JUndefined
  end.

(** [v.k]: a [TypeError] on [null] and [undefined]. *)
Definition get (v : JsVal) (k : string) : Result JsVal :=
  if nullish v then Throw TypeError else Ok (prop v k).

(** [v?.k] and [v?.[0]] *)
Definition optget (v : JsVal) (k : string) : JsVal :=
  if nullish v then JUndefined else prop v k.

(** ** Strings *)

Definition Z_to_string (n : Z) : string := NilZero.string_of_int (Z.to_int n).

Fixpoint join (sep : string) (l : list string) : string :=
  match l with
  | [] => ""
  | [s] => s
  | s :: t => s ++ sep ++ join sep t
  end.

(** [String(v)], as performed by [+] on a string, by template literals and
    by [parseInt]. *)
Fixpoint ToString (v : JsVal) : string :=
  match v with
  | JUndefined => "undefined"
  | JNull => "null"
  | JBool true => "true"
  | JBool false => "false"
  | JNum n => Z_to_string n
  | JStr s => s
  | JArr elems =>
      join "," (map (fun e => if nullish e then "" else ToString e) elems)
  | JObj _ => "[object Object]"
  end.

(** [Array.prototype.join]: [null] and [undefined] elements print as the
    empty string. *)
Definition js_join (sep : string) (l : list JsVal) : string :=
  join sep (map (fun e => if nullish e then "" else ToString e) l).

Definition lower_ascii (c : ascii) : ascii :=
  let n := nat_of_ascii c in
  if (Nat.leb 65 n && Nat.leb n 90)%bool then ascii_of_nat (n + 32) else c.

Fixpoint toLowerCase (s : string) : string :=
  match s with
  | EmptyString => EmptyString
  | String c r => String (lower_ascii c) (toLowerCase r)
  end.

Fixpoint starts_with (p s : string) : bool :=
  match p, s with
  | EmptyString, _ => true
  | String a p', String b s' => (Ascii.eqb a b && starts_with p' s')%bool
  | String _ _, EmptyString => false
  end.

(** [s.includes(p)]; also the test of a regular expression that is a plain
    word. *)
Fixpoint includes (s p : string) : bool :=
  (starts_with p s ||
   match s with
   | EmptyString => false
   | String _ r => includes r p
   end)%bool.

(** [/(w1|w2|...)/.test(s)] for plain words. *)
Definition test_any (words : list string) (s : string) : bool :=
  existsb (includes s) words.

(** A method call [v.m(...)] for a [String.prototype] method [m]: only a
    string has the method. *)
Definition as_string (v : JsVal) : Result string :=
  match v with
  | JStr s => Ok s
  | _ => Throw TypeError
  end.

(** A method call [v.map(...)] / [v.filter(...)]: only an array has it. *)
Definition as_array (v : JsVal) : Result (list JsVal) :=
  match v with
  | JArr l => Ok l
  | _ => Throw TypeError
  end.

(** ** The severity classifier *)

Definition violent_words : list string :=
  ["bomb"; "explosion"; "blast"; "airstrike"].

Definition unrest_words : list string :=
  ["terror"; "shooting"; "kidnap"; "abduction"; "riot"; "violent protest";
   "unrest"].

(** [function kwSeverity(s = "")] *)
Definition kwSeverity (s : JsVal) : Result Z :=
  t <- as_string (match s with JUndefined => JStr "" | _ => s end) ;;
  let t := toLowerCase t in
  if test_any violent_words t then Ok 5
  else if test_any unrest_words t then Ok 4
  else Ok 3.

(** ** Numbers read from the query string *)

Definition is_space (c : ascii) : bool :=
  let n := nat_of_ascii c in
  ((Nat.leb 9 n && Nat.leb n 13) || Nat.eqb n 32)%bool.

Fixpoint skip_spaces (s : string) : string :=
  match s with
  | String c r => if is_space c then skip_spaces r else s
  | EmptyString => s
  end.

Definition digit_of (c : ascii) : option Z :=
  let n := nat_of_ascii c in
  if (Nat.leb 48 n && Nat.leb n 57)%bool then Some (Z.of_nat n - 48) else None.

(** The value of the longest prefix of decimal digits; [acc] is [None]
    until a digit has been read. *)
Fixpoint digits_value (acc : option Z) (s : string) : option Z :=
  match s with
  | EmptyString => acc
  | String c r =>
      match digit_of c with
      | Some d =>
          digits_value (Some (10 * match acc with Some a => a | None => 0 end + d)) r
      | None => acc
      end
  end.

(** [parseInt(s, 10)]; [None] is [NaN]. *)
Definition parseInt (s : string) : option Z :=
  match skip_spaces s with
  | String "-" r => option_map Z.opp (digits_value None r)
  | String "+" r => digits_value None r
  | t => digits_value None t
  end.

(** [Math.min] and [Math.max] on two arguments: [NaN] is contagious. *)
Definition Math_min (a b : option Z) : option Z :=
  match a, b with
  | Some x, Some y => Some (Z.min x y)
  | _, _ => None
  end.

Definition Math_max (a b : option Z) : option Z :=
  match a, b with
  | Some x, Some y => Some (Z.max x y)
  | _, _ => None
  end.

(** A number spliced into a template literal. *)
Definition Number_toString (n : option Z) : string :=
  match n with
  | Some z => Z_to_string z
  | None => "NaN"
  end.

(** [Math.max(1, Math.min(hi, parseInt(v || dflt, 10)))] *)
Definition window (hi : Z) (dflt : string) (v : JsVal) : option Z :=
  Math_max (Some 1) (Math_min (Some hi) (parseInt (ToString (js_or v (JStr dflt))))).

(** ** Text helpers of the adapters *)

Definition is_gt (c : ascii) : bool := Ascii.eqb c ">".
Definition is_lt (c : ascii) : bool := Ascii.eqb c "<".

Fixpoint has_gt (s : string) : bool :=
  match s with
  | EmptyString => false
  | String c r => (is_gt c || has_gt r)%bool
  end.

(** After a ["<"]: does [[^>]+>] match here? *)
Definition tag_follows (s : string) : bool :=
  match s with
  | EmptyString => false
  | String c r => (negb (is_gt c) && has_gt r)%bool
  end.

(** [s.replace(/<[^>]+>/g, "")], one pass from the left; [inside] holds
    while a matched tag is being skipped. *)
Fixpoint strip_from (inside : bool) (s : string) : string :=
  match s with
  | EmptyString => EmptyString
  | String c r =>
      if inside then strip_from (negb (is_gt c)) r
      else if (is_lt c && tag_follows r)%bool then strip_from true r
      else String c (strip_from false r)
  end.

Definition strip_tags (s : string) : string := strip_from false s.

(** [s.slice(0, n)] *)
Definition slice0 (n : nat) (s : string) : string := substring 0 n s.

Definition hex_digit (n : nat) : ascii :=
  ascii_of_nat (if Nat.ltb n 10 then 48 + n else 55 + n).

Definition uri_unreserved (c : ascii) : bool :=
  let n := nat_of_ascii c in
  ((Nat.leb 48 n && Nat.leb n 57) || (Nat.leb 65 n && Nat.leb n 90)
   || (Nat.leb 97 n && Nat.leb n 122)
   || existsb (Ascii.eqb c) ["-"; "_"; "."; "!"; "~"; "*"; "'"; "("; ")"]%char)%bool.

(** [encodeURIComponent(s)] on the UTF-8 bytes of [s]. *)
Fixpoint encodeURIComponent (s : string) : string :=
  match s with
  | EmptyString => EmptyString
  | String c r =>
      if uri_unreserved c then String c (encodeURIComponent r)
      else
        let n := nat_of_ascii c in
        String "%" (String (hex_digit (Nat.div n 16))
                      (String (hex_digit (Nat.modulo n 16)) (encodeURIComponent r)))
  end.

(** ** Dates *)

(** Zero-padded decimal of a non-negative number, [w] digits wide. *)
Fixpoint pad (w : nat) (n : Z) : string :=
  match w with
  | O => EmptyString
  | S w' => pad w' (n / 10) ++ String (ascii_of_nat (48 + Z.to_nat (n mod 10))) EmptyString
  end.

(** Year, month and day of a day number counted from 1970-01-01
    (proleptic Gregorian calendar). *)
Definition civil_from_days (z : Z) : Z * Z * Z :=
  let z := z + 719468 in
  let era := z / 146097 in
  let doe := z - era * 146097 in
  let yoe := (doe - doe / 1460 + doe / 36524 - doe / 146096) / 365 in
  let doy := doe - (365 * yoe + yoe / 4 - yoe / 100) in
  let mp := (5 * doy + 2) / 153 in
  let d := doy - (153 * mp + 2) / 5 + 1 in
  let m := if mp <? 10 then mp + 3 else mp - 9 in
  let y := yoe + era * 400 + (if m <=? 2 then 1 else 0) in
  (y, m, d).

Definition iso_year (y : Z) : string :=
  if ((0 <=? y) && (y <=? 9999))%bool then pad 4 y
  else if y <? 0 then "-" ++ pad 6 (- y)
  else "+" ++ pad 6 y.

(** [Date.prototype.toISOString] of a valid time value (milliseconds since
    the epoch). *)
Definition toISOString (t : Z) : string :=
  let day := t / 86400000 in
  let ms := t mod 86400000 in
  let '(y, m, d) := civil_from_days day in
  iso_year y ++ "-" ++ pad 2 m ++ "-" ++ pad 2 d ++ "T"
    ++ pad 2 (ms / 3600000) ++ ":" ++ pad 2 (ms / 60000 mod 60) ++ ":"
    ++ pad 2 (ms / 1000 mod 60) ++ "." ++ pad 3 (ms mod 1000) ++ "Z".

(** [TimeClip] *)
Definition TimeClip (t : Z) : option Z :=
  if Z.abs t <=? 8640000000000000 then Some t else None.

(** ** Items and responses *)

Record Item : Type := mkItem {
  id : JsVal;
  ts : JsVal;
  source : JsVal;
  title : JsVal;
  summary : JsVal;
  severity : JsVal;
  links : JsVal;
  lat : JsVal;
  lng : JsVal
}.

(** [const item = (o) => ({ ... })] *)
Definition item (o : JsVal) : Result Item :=
  id' <- get o "id" ;;
  ts' <- get o "ts" ;;
  source' <- get o "source" ;;
  title' <- get o "title" ;;
  summary' <- get o "summary" ;;
  severity' <- get o "severity" ;;
  links' <- get o "links" ;;
  lat' <- get o "lat" ;;
  lng' <- get o "lng" ;;
  Ok {| id := id'; ts := ts'; source := source';
        title := title'; summary := summary';
        severity := js_coalesce severity' (JNum 3);
        links := js_or links' (JArr []);
        lat := lat'; lng := lng' |}.

(** What the client receives: the status line and the JSON array. *)
Record HttpResponse : Type := mkResponse {
  status : Z;
  body : list Item
}.

(** [res.json(out)]: Express answers with status 200 unless told
    otherwise, and no handler sets a status. *)
Definition res_json (out : list Item) : HttpResponse :=
  {| status := 200; body := out |}.

(** [try { ...; res.json(out) } catch (e) { res.json([]) }] *)
Definition try_catch (r : Result (list Item)) : HttpResponse :=
  match r with
  | Ok out => res_json out
  | Throw _ => res_json []
  end.

(** ** The bounded fetcher *)

Record Request : Type := mkRequest {
  url : string;
  method : string;
  headers : list (string * string);
  payload : option JsVal   (* the object handed to [JSON.stringify] *)
}.

(** What one outbound call meets.  [B] is the body as the fetcher's caller
    reads it: for [res.json()] the parsed value, or [None] when the body is
    not JSON; for [res.text()] the text. *)
Inductive Upstream (B : Type) : Type :=
| NetworkFailure
| TimedOut
| Response (code : Z) (content : B).
Arguments NetworkFailure {B}.
Arguments TimedOut {B}.
Arguments Response {B} code content.

(** [res.ok] *)
Definition res_ok (code : Z) : bool := ((200 <=? code) && (code <=? 299))%bool.

(** [async function getJson(url, init = {})] *)
Definition getJson (up : Upstream (option JsVal)) : Result JsVal :=
  match up with
  | NetworkFailure => Throw FetchError
  | TimedOut => Throw AbortError
  | Response code content =>
      if negb (res_ok code) then Throw (HttpError code)
      else match content with
           | Some v => Ok v
           | None => Throw SyntaxError
           end
  end.

(** [async function getText(url, init = {})] *)
Definition getText (up : Upstream string) : Result string :=
  match up with
  | NetworkFailure => Throw FetchError
  | TimedOut => Throw AbortError
  | Response code content =>
      if negb (res_ok code) then Throw (HttpError code) else Ok content
  end.

(** ** The allowed origins and the CORS callback *)

Definition is_comma (c : ascii) : bool := Ascii.eqb c ",".

(** [s.split(",")]: the pieces between commas; the empty string has one
    (empty) piece. *)
Fixpoint split_comma (s : string) : list string :=
  match s with
  | EmptyString => [EmptyString]
  | String c r =>
      if is_comma c then EmptyString :: split_comma r
      else match split_comma r with
           | h :: t => String c h :: t
           | [] => [String c EmptyString]
           end
  end.







(** ** Sample upstream documents and stand-ins for the external parsers

    Used where a statement is run on a concrete input. *)

Definition epoch_dates : string -> option Z := fun _ => Some 0.

Definition rss_entry (t d p : string) : JsVal :=
  JObj [("title", JArr [JStr t]); ("description", JArr [JStr d]);
        ("link", JArr [JStr "https://travel.state.gov/a"]);
        ("pubDate", JArr [JStr p])].

Definition rss_feed (entries : list JsVal) : JsVal :=
  JObj [("rss", JObj [("channel", JArr [JObj [("item", JArr entries)]])])].

Definition sa_entry : JsVal :=
  rss_entry "South Africa - Level 2" "<p>Exercise increased caution</p>"
            "Mon, 06 Jan 2025 00:00:00 GMT".

Definition other_entry : JsVal :=
  rss_entry "France - Level 2" "<p>Exercise increased caution</p>"
            "Mon, 06 Jan 2025 00:00:00 GMT".

Definition bad_date_entry : JsVal :=
  rss_entry "SOUTH AFRICA travel advisory" "" "not a date".

Definition feed_8_3 : JsVal :=
  rss_feed [other_entry; sa_entry; other_entry; other_entry; sa_entry;
            other_entry; sa_entry; other_entry].


Definition always_feed (j : JsVal) : string -> Result JsVal := fun _ => Ok j.

Definition rw_bare_report : JsVal :=
  JObj [("data", JArr [JObj [("id", JStr "4101"); ("fields", JObj [])]])].


Definition riot_article : JsVal :=
  JObj [("url", JStr "https://news.example/riot");
        ("title", JStr "Riot in Durban");
        ("seendate", JStr "20250106T000000Z");
        ("domain", JStr "news.example")].

Definition gdelt_doc : JsVal := JObj [("articles", JArr [riot_article])].

Section Service.

(** [parseStringPromise] of xml2js: the tree of a document, or a rejection. *)
Variable parseXml : string -> Result JsVal.

(** [Date.parse]: the time value of a date string, [None] ([NaN]) when the
    string is not recognised. *)
Variable Date_parse : string -> option Z.

(** The time value of [new Date(v)] for one argument. *)
Definition Date_new (v : JsVal) : option Z :=
  match v with
  | JStr s => Date_parse s
  | JNum n => TimeClip n
  | JBool b => Some (if b then 1 else 0)
  | JNull => Some 0
  | JUndefined => None
  | JArr _ | JObj _ => Date_parse (ToString v)
  end.

(** [new Date(v || Date.now()).toISOString()]: [toISOString] throws a
    [RangeError] on an invalid date.  [now] is the clock reading. *)
Definition date_iso (now : Z) (v : JsVal) : Result string :=
  if truthy v then
    match Date_new v with
    | Some t => Ok (toISOString t)
    | None => Throw RangeError
    end
  else Ok (toISOString now).

(** *** [GET /v1/gov/uk/za] *)

Definition gov_uk_request : Request :=
  {| url := "https://www.gov.uk/api/content/foreign-travel-advice/south-africa";
     method := "GET";
     headers := [("Accept", "application/json")];
     payload := None |}.

Definition gov_uk_adapt (now : Z) (data : JsVal) : Result (list Item) :=
  let d := js_or (optget data "details") (JObj []) in
  latest <- get d "latest_update" ;;
  published <- get (js_or latest (JObj [])) "published" ;;
  change <- js_or_else published
              (updated <- get data "public_updated_at" ;;
               Ok (js_or updated (JStr (toISOString now)))) ;;
  change_description <- get d "change_description" ;;
  summary0 <- get d "summary" ;;
  out <- item (JObj [("id", JStr "govuk:za");
                     ("ts", change);
                     ("source", JStr "gov.uk");
                     ("title", JStr "UK travel advice – South Africa");
                     ("summary", js_or (js_or change_description summary0)
                                       (JStr "Travel advice"));
                     ("severity", JNum 3);
                     ("links", JArr [JStr "https://www.gov.uk/foreign-travel-advice/south-africa"])]) ;;
  Ok [out].

Definition gov_uk_za (now : Z) (net : Request -> Upstream (option JsVal))
  : HttpResponse :=
  try_catch (data <- getJson (net gov_uk_request) ;; gov_uk_adapt now data).

(** *** [GET /v1/us/travel] *)

Definition us_travel_request : Request :=
  {| url := "https://travel.state.gov/content/travel/en/traveladvisories/traveladvisories.rss";
     method := "GET"; headers := []; payload := None |}.

(** The callback of [filter]. *)
Definition mentions_south_africa (x : JsVal) : Result bool :=
  t <- get x "title" ;;
  title' <- as_string (js_or (optget t "0") (JStr "")) ;;
  d <- get x "description" ;;
  descr <- as_string (js_or (optget d "0") (JStr "")) ;;
  Ok (includes (toLowerCase title') "south africa"
      || includes (toLowerCase descr) "south africa")%bool.

(** The callback of [map]. *)
Definition us_travel_item (now : Z) (x : JsVal) : Result Item :=
  guid <- get x "guid" ;;
  link <- get x "link" ;;
  t <- get x "title" ;;
  pubDate <- get x "pubDate" ;;
  iso <- date_iso now (optget pubDate "0") ;;
  d <- get x "description" ;;
  descr <- as_string (js_or (optget d "0") (JStr "")) ;;
  item (JObj [("id", JStr ("us:travel:" ++
                 ToString (js_or (js_or (optget (optget guid "0") "_")
                                        (optget link "0"))
                                 (optget t "0"))));
              ("ts", JStr iso);
              ("source", JStr "travel.state.gov");
              ("title", js_or (optget t "0") (JStr "US Travel Advisory"));
              ("summary", JStr (slice0 280 (strip_tags descr)));
              ("severity", JNum 3);
              ("links", JArr [js_or (optget link "0") (JStr "https://travel.state.gov")])]).

Definition us_travel_adapt (now : Z) (j : JsVal) : Result (list Item) :=
  entries <- as_array
    (js_or (optget (optget (optget (optget j "rss") "channel") "0") "item")
           (JArr [])) ;;
  kept <- filterM mentions_south_africa entries ;;
  items <- mapM (us_travel_item now) kept ;;
  Ok (firstn 5 items).

Definition us_travel (now : Z) (net : Request -> Upstream string) : HttpResponse :=
  try_catch (xml <- getText (net us_travel_request) ;;
             j <- parseXml xml ;;
             us_travel_adapt now j).

(** *** [GET /v1/reliefweb/za] *)

Definition reliefweb_days (query : JsVal) : option Z :=
  window 60 "21" (prop query "days").

Definition reliefweb_request (days : option Z) : Request :=
  let cond f v := JObj [("field", JStr f); ("value", v)] in
  {| url := "https://api.reliefweb.int/v1/reports?profile=list";
     method := "POST";
     headers := [("Content-Type", "application/json")];
     payload := Some (JObj [
       ("appname", JStr "guardian360");
       ("filter", JObj [
          ("operator", JStr "AND");
          ("conditions", JArr [
             cond "primary_country.name" (JStr "South Africa");
             JObj [("operator", JStr "OR");
                   ("conditions", JArr [
                      cond "theme.name" (JStr "Safety and Security");
                      cond "theme.name" (JStr "Protection and Human Rights");
                      cond "theme.name" (JStr "Health")])];
             cond "date.created"
               (JObj [("from", JStr ("now-" ++ Number_toString days ++ "d"))])])]);
       ("fields", JObj [("include", JArr [JStr "title"; JStr "url";
                                          JStr "date.created"; JStr "theme.name";
                                          JStr "source.name"])]);
       ("limit", JNum 30);
       ("profile", JStr "list")]) |}.

Definition alarm_themes : list string :=
  ["epidemic"; "conflict"; "security"; "protection"].

(** [(f.theme || []).map(x => x.name).join(", ")] *)
Definition reliefweb_themes (f : JsVal) : Result string :=
  theme <- get f "theme" ;;
  l <- as_array (js_or theme (JArr [])) ;;
  names <- mapM (fun x => get x "name") l ;;
  Ok (js_join ", " names).

(** The callback of [map]; [/Epidemic|Conflict|Security|Protection/i] sees
    the text with its ASCII letters folded. *)
Definition reliefweb_item (d : JsVal) : Result Item :=
  fields <- get d "fields" ;;
  let f := js_or fields (JObj []) in
  themes <- reliefweb_themes f ;;
  ident <- get d "id" ;;
  created <- get f "date.created" ;;
  title' <- get f "title" ;;
  url' <- get f "url" ;;
  item (JObj [("id", JStr ("rw:" ++ ToString ident));
              ("ts", created);
              ("source", JStr "reliefweb");
              ("title", title');
              ("summary", JStr themes);
              ("severity", JNum (if test_any alarm_themes (toLowerCase themes)
                                 then 4 else 3));
              ("links", JArr [url'])]).

Definition reliefweb_adapt (data : JsVal) : Result (list Item) :=
  l <- as_array (js_or (optget data "data") (JArr [])) ;;
  mapM reliefweb_item l.

Definition reliefweb_za (query : JsVal) (net : Request -> Upstream (option JsVal))
  : HttpResponse :=
  try_catch (let days := reliefweb_days query in
             data <- getJson (net (reliefweb_request days)) ;;
             reliefweb_adapt data).

(** *** [GET /v1/gdelt] *)

Definition gdelt_default_q : string :=
  "(South Africa) (murder OR explosion OR bomb OR protest OR riot OR kidnapping OR shooting)".

Definition gdelt_hours (query : JsVal) : option Z :=
  window 168 "24" (prop query "hours").

Definition gdelt_request (query : JsVal) : Request :=
  let q := js_or (prop query "q") (JStr gdelt_default_q) in
  {| url := "https://api.gdeltproject.org/api/v2/doc/doc?query="
            ++ encodeURIComponent (ToString q)
            ++ "&mode=ArtList&maxrecords=50&format=json&TIMESPAN="
            ++ Number_toString (gdelt_hours query) ++ "HRS";
     method := "GET"; headers := []; payload := None |}.

(** The callback of [map]. *)
Definition gdelt_item (now : Z) (a : JsVal) : Result Item :=
  url' <- get a "url" ;;
  title' <- get a "title" ;;
  seendate <- get a "seendate" ;;
  timestamp <- get a "timestamp" ;;
  iso <- date_iso now (js_or seendate timestamp) ;;
  sourceCountry <- get a "sourceCountry" ;;
  domain <- get a "domain" ;;
  sev <- kwSeverity (JStr (ToString title' ++ " " ++ ToString url')) ;;
  item (JObj [("id", JStr ("gdelt:" ++ ToString (js_or url' title')));
              ("ts", JStr iso);
              ("source", JStr "gdelt");
              ("title", title');
              ("summary", if truthy sourceCountry
                          then JStr (ToString domain ++ " • " ++ ToString sourceCountry)
                          else domain);
              ("severity", JNum sev);
              ("links", JArr [url'])]).

Definition gdelt_adapt (now : Z) (data : JsVal) : Result (list Item) :=
  arts <- as_array (js_or (optget data "articles") (JArr [])) ;;
  mapM (gdelt_item now) arts.

Definition gdelt (now : Z) (query : JsVal) (net : Request -> Upstream (option JsVal))
  : HttpResponse :=
  try_catch (data <- getJson (net (gdelt_request query)) ;; gdelt_adapt now data).

End Service.

(** ** Vocabulary of the statements *)

(** [w] occurs in [s] as a contiguous substring. *)
Definition contains (s w : string) : Prop :=
  exists pre post, s = pre ++ w ++ post.

(** Case-insensitive occurrence. *)
Definition ci_contains (s w : string) : Prop :=
  contains (toLowerCase s) (toLowerCase w).

(** [s] mentions, in any letter case, one of [words]. *)
Definition mentions (words : list string) (s : string) : Prop :=
  exists w, In w words /\ ci_contains s w.





(** The elements of an array value ([[]] for anything else). *)
Definition elems_of (v : JsVal) : list JsVal :=
  match v with
  | JArr l => l
  | _ => []
  end.




(** The publish date of an entry. *)
Definition entry_date (x : JsVal) : JsVal := optget (prop x "pubDate") "0".

(** The channel items of a parsed feed. *)
Definition channel_items (j : JsVal) : JsVal :=
  js_or (optget (optget (optget (optget j "rss") "channel") "0") "item") (JArr []).

(** The theme names of a situation report and their joined text. *)
Definition report_theme_names (d : JsVal) : list JsVal :=
  map (fun x => prop x "name")
      (elems_of (js_or (prop (js_or (prop d "fields") (JObj [])) "theme") (JArr []))).

Definition report_themes (d : JsVal) : string :=
  js_join ", " (report_theme_names d).



(** The date an article carries, if any. *)
Definition article_date (a : JsVal) : JsVal :=
  js_or (prop a "seendate") (prop a "timestamp").

(** A date string the sample parser knows, and one it rejects. *)
Definition sample_dates : string -> option Z :=
  fun s => if String.eqb s "Mon, 06 Jan 2025 00:00:00 GMT"
           then Some 1736121600000 else None.


Definition serve {B : Type} (content : B) : Request -> Upstream B :=
  fun _ => Response 200 content.

(** The outbound call did not deliver a usable body: the connection
    failed, the timer fired, the status is outside 200..299, or the body is
    [malformed] for its reader. *)
Definition upstream_failed {B : Type} (malformed : B -> Prop) (up : Upstream B)
  : Prop :=
  up = NetworkFailure \/ up = TimedOut \/
  exists code content,
    up = Response code content /\ (code < 200 \/ 299 < code \/ malformed content).

Definition not_json (content : option JsVal) : Prop := content = None.

Definition empty_200 : HttpResponse := {| status := 200; body := [] |}.



(** The item the news adapter builds from the article of [gdelt_doc]. *)
Definition gdelt_sample_item : Item :=
  {| id := JStr "gdelt:https://news.example/riot";
     ts := JStr "1970-01-01T00:00:00.000Z";
     source := JStr "gdelt";
     title := JStr "Riot in Durban";
     summary := JStr "news.example";
     severity := JNum 4;
     links := JArr [JStr "https://news.example/riot"];
     lat := JUndefined;
     lng := JUndefined |}.

Definition undated_article (s : string) : JsVal :=
  JObj [("url", JStr "https://news.example/b"); ("title", JStr "Protest");
        ("seendate", JStr s); ("domain", JStr "news.example")].

(** [c] occurs in [s]. *)
Fixpoint has_char (c : ascii) (s : string) : bool :=
  match s with
  | EmptyString => false
  | String a r => (Ascii.eqb a c || has_char c r)%bool
  end.

(** [s] holds a match of [<[^>]+>]: a ["<"], at least one character other
    than [">"], and a [">"]. *)
Definition has_tag (s : string) : Prop :=
  exists pre inner post,
    s = pre ++ String "<" (inner ++ String ">" post)
    /\ inner <> "" /\ has_gt inner = false.

(** No position of [s] starts a match of [<[^>]+>]. *)
Fixpoint no_tag (s : string) : bool :=
  match s with
  | EmptyString => true
  | String c r => (negb (is_lt c && tag_follows r) && no_tag r)%bool
  end.

(** Only characters that stand for themselves in a query string, and the
    percent sign. *)
Fixpoint url_safe (s : string) : bool :=
  match s with
  | EmptyString => true
  | String c r => ((uri_unreserved c || Ascii.eqb c "%") && url_safe r)%bool
  end.

Definition starts_with_digit (s : string) : bool :=
  match s with
  | EmptyString => false
  | String c _ => match digit_of c with Some _ => true | None => false end
  end.

(** [n] brought into [lo .. hi]. *)
Definition clamp (lo hi n : Z) : Z := Z.max lo (Z.min hi n).

(** * Properties *)

(** ** The error monad and list traversals *)

Lemma bind_ok {A B : Type} (c : Result A) (k : A -> Result B) (b : B) :
  bind c k = Ok b -> exists a, c = Ok a /\ k a = Ok b.
Proof.
  destruct c as [a|e]; simpl; intros H; [eauto | discriminate].
Qed.

Ltac bind_inv :=
  repeat match goal with
         | H : bind _ _ = Ok _ |- _ =>
             let a := fresh "v" in
             let Ha := fresh "Hv" in
             apply bind_ok in H; destruct H as (a & Ha & H)
         | H : Ok _ = Ok _ |- _ => injection H as H
         end.

Lemma mapM_Forall2 {A B : Type} (f : A -> Result B) (l : list A) (r : list B) :
  mapM f l = Ok r -> Forall2 (fun x y => f x = Ok y) l r.
Proof.
  revert r; induction l as [|x t IH]; simpl; intros r H.
  - injection H as <-. constructor.
  - bind_inv. subst r. constructor; auto.
Qed.

Lemma mapM_In {A B : Type} (f : A -> Result B) (l : list A) (r : list B) (y : B) :
  mapM f l = Ok r -> In y r -> exists x, In x l /\ f x = Ok y.
Proof.
  intros H Hy. apply mapM_Forall2 in H.
  induction H as [|x y' l' r' Hxy _ IH]; simpl in *; [contradiction|].
  destruct Hy as [->|Hy]; [eauto|].
  destruct (IH Hy) as (x' & Hin & Hx'); eauto.
Qed.




Lemma filterM_In {A : Type} (p : A -> Result bool) (l kept : list A) (x : A) :
  filterM p l = Ok kept -> In x kept -> In x l /\ p x = Ok true.
Proof.
  revert kept; induction l as [|a t IH]; simpl; intros kept H Hx.
  - injection H as <-. contradiction.
  - bind_inv. subst kept. destruct v.
    + destruct Hx as [->|Hx]; [auto|]. destruct (IH _ Hv0 Hx); auto.
    + destruct (IH _ Hv0 Hx); auto.
Qed.

Lemma In_firstn {A : Type} (n : nat) (l : list A) (x : A) :
  In x (firstn n l) -> In x l.
Proof.
  revert l; induction n as [|n IH]; intros [|a l]; simpl; try contradiction.
  intros [->|H]; auto.
Qed.

Lemma try_catch_In (r : Result (list Item)) (it : Item) :
  In it (body (try_catch r)) -> exists out, r = Ok out /\ In it out.
Proof.
  destruct r as [out|e]; simpl; [eauto | contradiction].
Qed.

Lemma try_catch_throw (r : Result (list Item)) (e : Exn) :
  r = Throw e -> try_catch r = {| status := 200; body := [] |}.
Proof. intros ->. reflexivity. Qed.

(** ** Strings *)

Lemma starts_with_spec (p s : string) :
  starts_with p s = true <-> exists post, s = p ++ post.
Proof.
  revert s; induction p as [|a p IH]; intros s; simpl.
  - split; [intros _; exists s; reflexivity | reflexivity].
  - destruct s as [|b s].
    + split; [discriminate | intros [post H]; discriminate].
    + rewrite andb_true_iff, Ascii.eqb_eq, IH. split.
      * intros [-> [post ->]]. exists post. reflexivity.
      * intros [post H]. injection H as -> ->. eauto.
Qed.

Lemma includes_spec (s p : string) : includes s p = true <-> contains s p.
Proof.
  unfold contains. induction s as [|c s IH].
  - simpl. rewrite orb_false_r, starts_with_spec. split.
    + intros [post H]. exists "", post. exact H.
    + intros (pre & post & H). destruct pre; [eauto | discriminate].
  - cbn [includes]. rewrite orb_true_iff, IH, starts_with_spec. split.
    + intros [[post H] | (pre & post & H)].
      * exists "", post. exact H.
      * exists (String c pre), post. simpl. rewrite H. reflexivity.
    + intros (pre & post & H). destruct pre as [|a pre].
      * left. exists post. exact H.
      * right. simpl in H. injection H as _ H. eauto.
Qed.

Lemma test_any_spec (words : list string) (s : string) :
  test_any words s = true <-> exists w, In w words /\ contains s w.
Proof.
  unfold test_any. rewrite existsb_exists.
  split; intros (w & Hin & H); exists w; split; auto; apply includes_spec; auto.
Qed.



Lemma test_any_mentions (words : list string) (s : string) :
  Forall (fun w => toLowerCase w = w) words ->
  (test_any words (toLowerCase s) = true <-> mentions words s).
Proof.
  intros Hlow. rewrite test_any_spec. unfold mentions, ci_contains.
  rewrite Forall_forall in Hlow.
  split; intros (w & Hin & H); exists w; split; auto.
  - rewrite (Hlow w Hin). exact H.
  - rewrite (Hlow w Hin) in H. exact H.
Qed.


(** ** The severity classifier *)

Lemma kwSeverity_string (s : string) :
  kwSeverity (JStr s) =
  Ok (if test_any violent_words (toLowerCase s) then 5
      else if test_any unrest_words (toLowerCase s) then 4 else 3).
Proof.
  unfold kwSeverity. cbn [as_string bind].
  destruct (test_any violent_words (toLowerCase s)); [reflexivity|].
  destruct (test_any unrest_words (toLowerCase s)); reflexivity.
Qed.


(** ** The fetcher and the handlers' failure policy *)

Lemma getJson_failed (up : Upstream (option JsVal)) :
  upstream_failed not_json up -> exists e, getJson up = Throw e.
Proof.
  intros [-> | [-> | (code & content & -> & H)]]; simpl; eauto.
  destruct (res_ok code) eqn:Hok; simpl; eauto.
  unfold res_ok in Hok. apply andb_true_iff in Hok as [H1 H2].
  apply Z.leb_le in H1, H2.
  destruct H as [H | [H | ->]]; [lia | lia | eauto].
Qed.

Lemma getText_ok_or_failed (malformed : string -> Prop) (up : Upstream string) :
  upstream_failed malformed up ->
  (exists e, getText up = Throw e) \/
  (exists xml, getText up = Ok xml /\ malformed xml).
Proof.
  intros [-> | [-> | (code & content & -> & H)]]; simpl; eauto.
  destruct (res_ok code) eqn:Hok; simpl; eauto.
  unfold res_ok in Hok. apply andb_true_iff in Hok as [H1 H2].
  apply Z.leb_le in H1, H2.
  destruct H as [H | [H | H]]; [lia | lia | eauto].
Qed.

Section Handlers.

Variable parseXml : string -> Result JsVal.
Variable Date_parse : string -> option Z.

(** C1: in each of the four handlers, when the outbound call fails (network
    error, timeout, status outside 200..299, malformed JSON or XML body) or
    the adaptation of the fetched document throws, the response is the empty
    array with status 200. *)
Theorem failure_yields_empty_array :
  forall (now : Z) (query : JsVal)
         (netj : Request -> Upstream (option JsVal))
         (nett : Request -> Upstream string),
    ((upstream_failed not_json (netj gov_uk_request)
      \/ (exists data e, getJson (netj gov_uk_request) = Ok data
                         /\ gov_uk_adapt now data = Throw e))
     -> gov_uk_za now netj = empty_200)
    /\
    ((upstream_failed (fun xml => exists e, parseXml xml = Throw e)
                      (nett us_travel_request)
      \/ (exists xml j e, getText (nett us_travel_request) = Ok xml
                          /\ parseXml xml = Ok j
                          /\ us_travel_adapt Date_parse now j = Throw e))
     -> us_travel parseXml Date_parse now nett = empty_200)
    /\
    ((upstream_failed not_json (netj (reliefweb_request (reliefweb_days query)))
      \/ (exists data e,
             getJson (netj (reliefweb_request (reliefweb_days query))) = Ok data
             /\ reliefweb_adapt data = Throw e))
     -> reliefweb_za query netj = empty_200)
    /\
    ((upstream_failed not_json (netj (gdelt_request query))
      \/ (exists data e, getJson (netj (gdelt_request query)) = Ok data
                         /\ gdelt_adapt Date_parse now data = Throw e))
     -> gdelt Date_parse now query netj = empty_200).
Proof.
  intros now query netj nett. repeat split.
  - intros [H | (data & e & Hf & Ha)].
    + apply getJson_failed in H as [e He]. unfold gov_uk_za. rewrite He. reflexivity.
    + unfold gov_uk_za. rewrite Hf. simpl. rewrite Ha. reflexivity.
  - intros [H | (xml & j & e & Hf & Hp & Ha)].
    + apply getText_ok_or_failed in H as [[e He] | (xml & Hx & e & He)];
        unfold us_travel.
      * rewrite He. reflexivity.
      * rewrite Hx. simpl. rewrite He. reflexivity.
    + unfold us_travel. rewrite Hf. simpl. rewrite Hp. simpl. rewrite Ha.
      reflexivity.
  - intros [H | (data & e & Hf & Ha)].
    + apply getJson_failed in H as [e He]. unfold reliefweb_za. rewrite He.
      reflexivity.
    + unfold reliefweb_za. rewrite Hf. simpl. rewrite Ha. reflexivity.
  - intros [H | (data & e & Hf & Ha)].
    + apply getJson_failed in H as [e He]. unfold gdelt. rewrite He. reflexivity.
    + unfold gdelt. rewrite Hf. simpl. rewrite Ha. reflexivity.
Qed.

(** ** The shape of emitted items *)

Lemma get_ok (v : JsVal) (k : string) (r : JsVal) :
  get v k = Ok r -> nullish v = false /\ r = prop v k.
Proof.
  unfold get. destruct (nullish v); [discriminate|].
  intros H; injection H as <-. auto.
Qed.

Lemma get_not_nullish (v : JsVal) (k : string) :
  nullish v = false -> get v k = Ok (prop v k).
Proof. unfold get. intros ->. reflexivity. Qed.

Lemma js_or_not_nullish (a b : JsVal) : nullish b = false -> nullish (js_or a b) = false.
Proof.
  unfold js_or. intros Hb. destruct (truthy a) eqn:Ha; [|exact Hb].
  destruct a; simpl in *; congruence.
Qed.


Lemma as_array_ok (v : JsVal) (l : list JsVal) : as_array v = Ok l -> v = JArr l.
Proof. destruct v; simpl; intros H; try discriminate. injection H as ->. reflexivity. Qed.

Lemma item_obj (fs : list (string * JsVal)) :
  item (JObj fs) =
  Ok {| id := lookup "id" fs; ts := lookup "ts" fs; source := lookup "source" fs;
        title := lookup "title" fs; summary := lookup "summary" fs;
        severity := js_coalesce (lookup "severity" fs) (JNum 3);
        links := js_or (lookup "links" fs) (JArr []);
        lat := lookup "lat" fs; lng := lookup "lng" fs |}.
Proof. reflexivity. Qed.

Ltac get_inv :=
  repeat match goal with
         | H : get _ _ = Ok _ |- _ =>
             let Hn := fresh "Hn" in
             apply get_ok in H; destruct H as [Hn H]
         end.

Ltac item_inv H :=
  rewrite item_obj in H; injection H as H; subst; cbn.

Lemma gov_uk_adapt_shape (now : Z) (data : JsVal) (out : list Item) :
  gov_uk_adapt now data = Ok out ->
  exists it,
    out = [it]
    /\ id it = JStr "govuk:za" /\ source it = JStr "gov.uk"
    /\ title it = JStr "UK travel advice – South Africa"
    /\ severity it = JNum 3
    /\ links it = JArr [JStr "https://www.gov.uk/foreign-travel-advice/south-africa"].
Proof.
  unfold gov_uk_adapt. intros H. bind_inv.
  match goal with Hi : item _ = Ok _ |- _ => rewrite item_obj in Hi; injection Hi as Hi end.
  subst. eexists. split; [reflexivity|]. cbn. auto.
Qed.

Lemma us_travel_item_shape (now : Z) (x : JsVal) (it : Item) :
  us_travel_item Date_parse now x = Ok it ->
  exists i t s,
    id it = JStr i /\ ts it = JStr t /\ source it = JStr "travel.state.gov"
    /\ title it = js_or (optget (prop x "title") "0") (JStr "US Travel Advisory")
    /\ summary it = JStr s
    /\ severity it = JNum 3
    /\ links it = JArr [js_or (optget (prop x "link") "0")
                              (JStr "https://travel.state.gov")].
Proof.
  unfold us_travel_item. intros H. bind_inv. get_inv. item_inv H.
  do 3 eexists. repeat split.
Qed.

Lemma theme_names_ok (l names : list JsVal) :
  mapM (fun x => get x "name") l = Ok names ->
  names = map (fun x => prop x "name") l.
Proof.
  intros H. apply mapM_Forall2 in H.
  induction H as [|x y l' r' Hxy _ IH]; simpl; [reflexivity|].
  apply get_ok in Hxy as [_ ->]. rewrite IH. reflexivity.
Qed.

Lemma reliefweb_themes_ok (f : JsVal) (themes : string) :
  reliefweb_themes f = Ok themes ->
  nullish f = false ->
  themes = js_join ", " (map (fun x => prop x "name")
                             (elems_of (js_or (prop f "theme") (JArr [])))).
Proof.
  unfold reliefweb_themes. intros H Hf. rewrite (get_not_nullish _ _ Hf) in H.
  cbn [bind] in H. bind_inv.
  match goal with Ha : as_array _ = Ok _ |- _ => apply as_array_ok in Ha; rewrite Ha end.
  match goal with Hm : mapM _ _ = Ok _ |- _ => apply theme_names_ok in Hm; subst end.
  reflexivity.
Qed.

Lemma reliefweb_item_shape (d : JsVal) (it : Item) :
  reliefweb_item d = Ok it ->
  exists i,
    id it = JStr i /\ source it = JStr "reliefweb"
    /\ ts it = prop (js_or (prop d "fields") (JObj [])) "date.created"
    /\ title it = prop (js_or (prop d "fields") (JObj [])) "title"
    /\ summary it = JStr (report_themes d)
    /\ severity it = JNum (if test_any alarm_themes (toLowerCase (report_themes d))
                           then 4 else 3)
    /\ links it = JArr [prop (js_or (prop d "fields") (JObj [])) "url"].
Proof.
  unfold reliefweb_item. intros H. bind_inv.
  match goal with
  | Ht : reliefweb_themes _ = Ok _ |- _ =>
      apply reliefweb_themes_ok in Ht;
      [| apply js_or_not_nullish; reflexivity]
  end.
  get_inv. item_inv H. eexists. repeat split.
Qed.

Lemma kwSeverity_range (v : JsVal) (n : Z) : kwSeverity v = Ok n -> 3 <= n <= 5.
Proof.
  unfold kwSeverity. intros H. bind_inv.
  destruct (test_any violent_words (toLowerCase v0));
    [|destruct (test_any unrest_words (toLowerCase v0))];
    injection H as <-; lia.
Qed.

Lemma gdelt_item_shape (now : Z) (a : JsVal) (it : Item) :
  gdelt_item Date_parse now a = Ok it ->
  exists i t n,
    id it = JStr i /\ ts it = JStr t /\ source it = JStr "gdelt"
    /\ title it = prop a "title"
    /\ severity it = JNum n /\ 3 <= n <= 5
    /\ links it = JArr [prop a "url"].
Proof.
  unfold gdelt_item. intros H. bind_inv. get_inv.
  match goal with Hk : kwSeverity _ = Ok _ |- _ => apply kwSeverity_range in Hk end.
  item_inv H. do 3 eexists. repeat split; lia.
Qed.

(** Every item of a response comes from its adapter's item constructor. *)
Lemma gov_uk_za_In (now : Z) (net : Request -> Upstream (option JsVal)) (it : Item) :
  In it (body (gov_uk_za now net)) ->
  exists data, gov_uk_adapt now data = Ok [it].
Proof.
  intros H. apply try_catch_In in H as (out & H & Hin). bind_inv.
  destruct (gov_uk_adapt_shape _ _ _ H) as (it' & -> & _).
  destruct Hin as [->|[]]. eauto.
Qed.

Lemma us_travel_In (now : Z) (net : Request -> Upstream string) (it : Item) :
  In it (body (us_travel parseXml Date_parse now net)) ->
  exists x, mentions_south_africa x = Ok true
            /\ us_travel_item Date_parse now x = Ok it.
Proof.
  intros H. apply try_catch_In in H as (out & H & Hin). bind_inv.
  unfold us_travel_adapt in H. bind_inv. subst out.
  apply (In_firstn 5) in Hin.
  match goal with
  | Hm : mapM _ _ = Ok _, Hf : filterM _ _ = Ok _ |- _ =>
      destruct (mapM_In _ _ _ _ Hm Hin) as (x & Hx & Hit);
      destruct (filterM_In _ _ _ _ Hf Hx) as [_ Hp]
  end.
  eauto.
Qed.

Lemma reliefweb_za_In (query : JsVal) (net : Request -> Upstream (option JsVal))
      (it : Item) :
  In it (body (reliefweb_za query net)) -> exists d, reliefweb_item d = Ok it.
Proof.
  intros H. apply try_catch_In in H as (out & H & Hin). cbv zeta in H. bind_inv.
  unfold reliefweb_adapt in H. bind_inv.
  destruct (mapM_In _ _ _ _ H Hin) as (x & _ & Hit). eauto.
Qed.

Lemma gdelt_In (now : Z) (query : JsVal) (net : Request -> Upstream (option JsVal))
      (it : Item) :
  In it (body (gdelt Date_parse now query net)) ->
  exists a, gdelt_item Date_parse now a = Ok it.
Proof.
  intros H. apply try_catch_In in H as (out & H & Hin). bind_inv.
  unfold gdelt_adapt in H. bind_inv.
  destruct (mapM_In _ _ _ _ H Hin) as (x & _ & Hit). eauto.
Qed.



(** ** The situation-reports adapter *)




(** ** The RSS advisory adapter *)









(** ** Two calls against the same upstream *)


Lemma truthy_not_nullish (v : JsVal) : truthy v = true -> nullish v = false.
Proof. destruct v; simpl; congruence. Qed.


Lemma js_or_truthy (a b : JsVal) : truthy a = true -> js_or a b = a.
Proof. unfold js_or. intros ->. reflexivity. Qed.





End Handlers.

(** ** The travel-advice adapter *)

Lemma js_or_else_chain (a b c : JsVal) :
  js_or_else a (Ok (js_or b c)) = Ok (js_or (js_or a b) c).
Proof.
  unfold js_or_else, js_or. destruct (truthy a) eqn:Ha; [rewrite Ha|]; reflexivity.
Qed.

(** On every document other than [null] the endpoint answers with exactly
    one item, with the fixed id and severity and the fallback chains of the
    summary and of the timestamp. *)
Lemma gov_uk_one_item (now : Z) (net : Request -> Upstream (option JsVal))
      (data : JsVal) :
  getJson (net gov_uk_request) = Ok data ->
  nullish data = false ->
  let d := js_or (prop data "details") (JObj []) in
  exists it,
    gov_uk_za now net = res_json [it]
    /\ id it = JStr "govuk:za"
    /\ severity it = JNum 3
    /\ summary it = js_or (js_or (prop d "change_description") (prop d "summary"))
                          (JStr "Travel advice")
    /\ ts it = js_or (js_or (prop (js_or (prop d "latest_update") (JObj [])) "published")
                            (prop data "public_updated_at"))
                     (JStr (toISOString now)).
Proof.
  intros Hf Hdata d. unfold gov_uk_za. rewrite Hf. cbn [bind].
  unfold gov_uk_adapt, optget. rewrite Hdata. fold d.
  assert (Hd : nullish d = false) by (apply js_or_not_nullish; reflexivity).
  rewrite !(get_not_nullish _ _ Hd). cbn [bind].
  set (latest := js_or (prop d "latest_update") (JObj [])).
  assert (Hl : nullish latest = false) by (apply js_or_not_nullish; reflexivity).
  rewrite !(get_not_nullish _ _ Hl), !(get_not_nullish _ _ Hdata). cbn [bind].
  rewrite js_or_else_chain. cbn [bind]. rewrite item_obj. cbn [bind try_catch].
  eexists. split; [reflexivity|]. cbn. repeat split.
Qed.

(** C7: the document [null] is valid JSON, and on it the travel-advice
    endpoint emits no item: reading [public_updated_at] off [null] throws,
    and the handler answers with the empty array. *)
Theorem gov_uk_null_document_emits_nothing :
  forall now : Z,
    getJson (serve (Some JNull) gov_uk_request) = Ok JNull
    /\ gov_uk_adapt now JNull = Throw TypeError
    /\ gov_uk_za now (serve (Some JNull)) = empty_200.
Proof. intros now. repeat split. Qed.

(** ** The query windows *)

(** Whenever the window is a number it lies within its bounds. *)
Lemma window_in_range (hi : Z) (dflt : string) (v : JsVal) (n : Z) :
  1 <= hi -> window hi dflt v = Some n -> 1 <= n <= hi.
Proof.
  unfold window, Math_max, Math_min. intros Hhi.
  destruct (parseInt (ToString (js_or v (JStr dflt)))) as [k|]; [|discriminate].
  intros H; injection H as <-. lia.
Qed.

(** The numeric examples and the defaults. *)
Lemma window_examples :
  reliefweb_days (JObj [("days", JStr "0")]) = Some 1
  /\ reliefweb_days (JObj [("days", JStr "9999")]) = Some 60
  /\ reliefweb_days (JObj []) = Some 21
  /\ gdelt_hours (JObj [("hours", JStr "500")]) = Some 168
  /\ gdelt_hours (JObj []) = Some 24.
Proof. repeat split. Qed.

(** C4: a non-numeric [days] does not fall back to 21: [parseInt] yields
    [NaN], which passes through both clamps, and the request asks for
    [now-NaNd]. *)
Theorem non_numeric_window_is_NaN :
  reliefweb_days (JObj [("days", JStr "abc")]) = None
  /\ reliefweb_days (JObj [("days", JStr "abc")]) <> Some 21
  /\ Number_toString (reliefweb_days (JObj [("days", JStr "abc")])) = "NaN"
  /\ gdelt_hours (JObj [("hours", JStr "soon")]) = None.
Proof. repeat split. discriminate. Qed.

(** ** Timestamps *)

(** A record without a date keeps its item, stamped with the clock. *)
Lemma missing_date_falls_back_to_now (Date_parse : string -> option Z)
      (now : Z) (v : JsVal) :
  truthy v = false -> date_iso Date_parse now v = Ok (toISOString now).
Proof. unfold date_iso. intros ->. reflexivity. Qed.

Lemma truthy_nonempty (s : string) : s <> "" -> truthy (JStr s) = true.
Proof.
  intros Hs. simpl. destruct (String.eqb s "") eqn:E; [|reflexivity].
  apply String.eqb_eq in E. contradiction.
Qed.

Lemma unreadable_date_throws (Date_parse : string -> option Z) (now : Z) (s : string) :
  s <> "" -> Date_parse s = None ->
  date_iso Date_parse now (JStr s) = Throw RangeError.
Proof.
  intros Hs Hn. unfold date_iso. rewrite (truthy_nonempty s Hs). simpl.
  rewrite Hn. reflexivity.
Qed.

Lemma channel_items_rss_feed (entries : list JsVal) :
  channel_items (rss_feed entries) = JArr entries.
Proof. reflexivity. Qed.

(** C5: a date string that [Date.parse] does not read makes [toISOString]
    throw; the item is not stamped with the current time, and the whole
    response is the empty array, the items of the other records included.
    So it is in the RSS endpoint and in the news endpoint. *)
Theorem unreadable_date_empties_response :
  forall (Date_parse : string -> option Z) (now : Z) (s : string),
    s <> "" ->
    Date_parse s = None ->
    us_travel (always_feed (rss_feed [sa_entry; rss_entry "South Africa" "" s]))
              Date_parse now (serve "")
    = empty_200
    /\ gdelt Date_parse now (JObj [])
             (serve (Some (JObj [("articles",
                                  JArr [riot_article; undated_article s])])))
       = empty_200.
Proof.
  intros Date_parse now s Hs Hn.
  pose proof (unreadable_date_throws Date_parse now s Hs Hn) as Hthrow.
  split.
  - assert (Hbad : us_travel_item Date_parse now (rss_entry "South Africa" "" s)
                   = Throw RangeError).
    { unfold us_travel_item, rss_entry.
      cbn [get nullish prop lookup String.eqb Ascii.eqb Bool.eqb bind optget nth].
      rewrite Hthrow. reflexivity. }
    assert (Hk : filterM mentions_south_africa
                         [sa_entry; rss_entry "South Africa" "" s]
                 = Ok [sa_entry; rss_entry "South Africa" "" s]) by reflexivity.
    assert (Hg : getText (serve "" us_travel_request) = Ok "") by reflexivity.
    unfold us_travel. rewrite Hg. cbn [bind]. unfold always_feed. cbn [bind].
    unfold us_travel_adapt.
    fold (channel_items (rss_feed [sa_entry; rss_entry "South Africa" "" s])).
    rewrite channel_items_rss_feed. cbn [as_array bind].
    rewrite Hk. cbn [bind mapM]. rewrite Hbad.
    destruct (us_travel_item Date_parse now sa_entry); reflexivity.
  - assert (Hbad : gdelt_item Date_parse now (undated_article s) = Throw RangeError).
    { unfold gdelt_item, undated_article.
      cbn [get nullish prop lookup String.eqb Ascii.eqb Bool.eqb bind].
      rewrite (js_or_truthy (JStr s)) by (apply truthy_nonempty; exact Hs).
      rewrite Hthrow. reflexivity. }
    unfold gdelt.
    match goal with
    | |- try_catch (bind (getJson (serve (Some ?doc) ?r)) _) = _ =>
        assert (Hg : getJson (serve (Some doc) r) = Ok doc) by reflexivity;
        rewrite Hg
    end.
    cbn [bind]. unfold gdelt_adapt.
    match goal with
    | |- try_catch (bind (as_array ?v) _) = _ =>
        assert (Ha : as_array v = Ok [riot_article; undated_article s])
          by reflexivity;
        rewrite Ha
    end.
    cbn [bind mapM]. rewrite Hbad.
    destruct (gdelt_item Date_parse now riot_article); reflexivity.
Qed.

(** ** The statements on concrete inputs *)



Lemma failure_yields_empty_array_witness :
  gov_uk_za 0 (serve (B := option JsVal) None) = empty_200
  /\ us_travel (fun _ => Throw SyntaxError) sample_dates 0 (serve "<rss") = empty_200
  /\ reliefweb_za (JObj []) (fun _ => Response 500 (Some rw_bare_report)) = empty_200
  /\ gdelt sample_dates 0 (JObj []) (fun _ => TimedOut) = empty_200.
Proof.
  destruct (failure_yields_empty_array (fun _ => Throw SyntaxError) sample_dates
              0 (JObj []) (serve None) (serve "<rss")) as (Hgov & Hus & _ & _).
  destruct (failure_yields_empty_array (fun _ => Throw SyntaxError) sample_dates
              0 (JObj []) (fun _ => Response 500 (Some rw_bare_report)) (serve "<rss"))
    as (_ & _ & Hrw & _).
  destruct (failure_yields_empty_array (fun _ => Throw SyntaxError) sample_dates
              0 (JObj []) (fun _ => TimedOut) (serve "<rss")) as (_ & _ & _ & Hgd).
  split; [|split; [|split]].
  - apply Hgov. left. right. right. exists 200, None. split; [reflexivity|].
    right. right. reflexivity.
  - apply Hus. left. right. right. exists 200, "<rss". split; [reflexivity|].
    right. right. exists SyntaxError. reflexivity.
  - apply Hrw. left. right. right. exists 500, (Some rw_bare_report).
    split; [reflexivity|]. right. left. lia.
  - apply Hgd. left. right. left. reflexivity.
Defined.






Lemma unreadable_date_empties_response_witness :
  sample_dates "not a date" = None
  /\ us_travel (always_feed (rss_feed [sa_entry; rss_entry "South Africa" "" "not a date"]))
               sample_dates 0 (serve "")
     = empty_200
  /\ us_travel (always_feed (rss_feed [sa_entry])) sample_dates 0 (serve "")
     <> empty_200.
Proof.
  split; [reflexivity|]. split.
  - apply (unreadable_date_empties_response sample_dates 0 "not a date").
    + discriminate.
    + reflexivity.
  - vm_compute. discriminate.
Defined.

(** * Further properties of the code *)

(** ** Tag stripping *)

Lemma tag_follows_has_gt (r : string) : tag_follows r = true -> has_gt r = true.
Proof.
  destruct r as [|c r]; simpl; [discriminate|].
  intros H. apply andb_true_iff in H as [_ H]. rewrite H. apply orb_true_r.
Qed.

Lemma has_gt_strip (b : bool) (s : string) :
  has_gt (strip_from b s) = true -> has_gt s = true.
Proof.
  revert b. induction s as [|c r IH]; intros b; simpl; [auto|].
  destruct b.
  - intros H. rewrite (IH _ H). apply orb_true_r.
  - destruct (is_lt c && tag_follows r)%bool.
    + intros H. rewrite (IH _ H). apply orb_true_r.
    + simpl. intros H. apply orb_true_iff in H as [H | H].
      * rewrite H. reflexivity.
      * rewrite (IH _ H). apply orb_true_r.
Qed.

Lemma has_gt_strip_false (b : bool) (s : string) :
  has_gt s = false -> has_gt (strip_from b s) = false.
Proof.
  intros H. destruct (has_gt (strip_from b s)) eqn:E; [|reflexivity].
  apply has_gt_strip in E. congruence.
Qed.

Lemma tag_follows_strip (r : string) :
  tag_follows r = false -> tag_follows (strip_from false r) = false.
Proof.
  destruct r as [|c r]; [reflexivity|]. cbn [tag_follows]. intros H.
  apply andb_false_iff in H as [H | H].
  - apply negb_false_iff in H. cbn [strip_from].
    assert (Hlt : is_lt c = false).
    { unfold is_gt, is_lt in *. apply Ascii.eqb_eq in H. subst c. reflexivity. }
    rewrite Hlt. cbn [andb tag_follows]. rewrite H. reflexivity.
  - cbn [strip_from].
    assert (Htf : tag_follows r = false).
    { destruct (tag_follows r) eqn:E; [|reflexivity].
      apply tag_follows_has_gt in E. congruence. }
    rewrite Htf, andb_false_r. cbn [tag_follows].
    rewrite (has_gt_strip_false false r H). apply andb_false_r.
Qed.

Lemma no_tag_strip (b : bool) (s : string) : no_tag (strip_from b s) = true.
Proof.
  revert b. induction s as [|c r IH]; intros b; simpl; [reflexivity|].
  destruct b; [apply IH|].
  destruct (is_lt c && tag_follows r)%bool eqn:E; [apply IH|].
  cbn [no_tag]. rewrite IH, andb_true_r. apply negb_true_iff.
  apply andb_false_iff in E as [E | E].
  - rewrite E. reflexivity.
  - rewrite (tag_follows_strip r E). apply andb_false_r.
Qed.

Lemma strip_no_tag (s : string) : no_tag s = true -> strip_from false s = s.
Proof.
  induction s as [|c r IH]; simpl; [reflexivity|].
  intros H. apply andb_true_iff in H as [H1 H2]. apply negb_true_iff in H1.
  rewrite H1, (IH H2). reflexivity.
Qed.

Lemma length_strip (b : bool) (s : string) :
  (String.length (strip_from b s) <= String.length s)%nat.
Proof.
  revert b. induction s as [|c r IH]; intros b; simpl; [lia|].
  destruct b; [specialize (IH (negb (is_gt c))); lia|].
  destruct (is_lt c && tag_follows r)%bool; [specialize (IH true); lia|].
  simpl. specialize (IH false). lia.
Qed.

Lemma has_gt_app_gt (a b : string) : has_gt (a ++ String ">" b) = true.
Proof. induction a as [|c a IH]; simpl; [reflexivity | rewrite IH; apply orb_true_r]. Qed.

Lemma no_tag_sound (s : string) : no_tag s = true -> ~ has_tag s.
Proof.
  intros H (pre & inner & post & -> & Hne & Hgt).
  induction pre as [|c pre IH]; simpl in H.
  - apply andb_true_iff in H as [H _]. apply negb_true_iff in H.
    destruct inner as [|c inner]; [contradiction|].
    simpl in Hgt. apply orb_false_iff in Hgt as [Hc _].
    simpl in H. rewrite Hc, has_gt_app_gt in H. discriminate.
  - apply andb_true_iff in H as [_ H]. auto.
Qed.

Lemma has_gt_split (s : string) :
  has_gt s = true ->
  exists a b, s = a ++ String ">" b /\ has_gt a = false.
Proof.
  induction s as [|c r IH]; simpl; [discriminate|].
  destruct (is_gt c) eqn:E; simpl.
  - intros _. unfold is_gt in E. apply Ascii.eqb_eq in E. subst c.
    exists "", r. split; reflexivity.
  - intros H. destruct (IH H) as (a & b & -> & Ha).
    exists (String c a), b. split; [reflexivity|]. simpl. rewrite E, Ha. reflexivity.
Qed.

Lemma no_tag_complete (s : string) : no_tag s = false -> has_tag s.
Proof.
  induction s as [|c r IH]; simpl; [discriminate|].
  intros H. apply andb_false_iff in H as [H | H].
  - apply negb_false_iff in H. apply andb_true_iff in H as [Hlt Htf].
    unfold is_lt in Hlt. apply Ascii.eqb_eq in Hlt. subst c.
    destruct r as [|c r]; [discriminate|]. simpl in Htf.
    apply andb_true_iff in Htf as [Hc Hr]. apply negb_true_iff in Hc.
    destruct (has_gt_split r Hr) as (a & b & -> & Ha).
    exists "", (String c a), b. split; [reflexivity|]. split; [discriminate|].
    simpl. rewrite Hc, Ha. reflexivity.
  - destruct (IH H) as (pre & inner & post & -> & Hne & Hgt).
    exists (String c pre), inner, post. split; [reflexivity | auto].
Qed.

(** X6: removing tags with [replace(/<[^>]+>/g, "")] leaves no tag behind
    (no ["<"], one or more characters other than [">"], [">"]), so doing it
    twice changes nothing more; a text without tags is returned as it is;
    the result is never longer than the text. *)
Theorem strip_tags_removes_every_tag :
  forall s : string,
    ~ has_tag (strip_tags s)
    /\ strip_tags (strip_tags s) = strip_tags s
    /\ (~ has_tag s -> strip_tags s = s)
    /\ (String.length (strip_tags s) <= String.length s)%nat.
Proof.
  intros s. unfold strip_tags. split; [|split; [|split]].
  - apply no_tag_sound, no_tag_strip.
  - apply strip_no_tag, no_tag_strip.
  - intros H. apply strip_no_tag. destruct (no_tag s) eqn:E; [reflexivity|].
    exfalso. apply H, no_tag_complete, E.
  - apply length_strip.
Qed.





(** ** Decimal query values *)

Lemma digits_value_stop (v : option Z) (rest : string) :
  starts_with_digit rest = false -> digits_value v rest = v.
Proof.
  destruct rest as [|c r]; simpl; [reflexivity|].
  destruct (digit_of c); [discriminate | reflexivity].
Qed.

Ltac eval_digit :=
  match goal with
  | |- context [digit_of ?c] =>
      let v := eval vm_compute in (digit_of c) in
      change (digit_of c) with v
  end.

Lemma digits_value_acc (d : Decimal.uint) (acc : positive) (rest : string) :
  starts_with_digit rest = false ->
  digits_value (Some (Zpos acc)) (NilEmpty.string_of_uint d ++ rest)
  = Some (Zpos (Pos.of_uint_acc d acc)).
Proof.
  intros Hr. revert acc.
  induction d as [|d IH|d IH|d IH|d IH|d IH|d IH|d IH|d IH|d IH|d IH]; intros acc;
    cbn [NilEmpty.string_of_uint append];
    [apply digits_value_stop; exact Hr | ..];
    cbn [digits_value]; eval_digit;
    cbv iota beta; cbn [Pos.of_uint_acc]; rewrite <- IH; f_equal; f_equal; lia.
Qed.

Lemma digits_value_from_zero (d : Decimal.uint) (rest : string) :
  starts_with_digit rest = false ->
  digits_value (Some 0) (NilEmpty.string_of_uint d ++ rest)
  = Some (Z.of_N (Pos.of_uint d)).
Proof.
  intros Hr.
  induction d as [|d IH|d IH|d IH|d IH|d IH|d IH|d IH|d IH|d IH|d IH];
    cbn [NilEmpty.string_of_uint append];
    [apply digits_value_stop; exact Hr | exact IH | ..];
    cbn [digits_value]; eval_digit; cbv iota beta;
    cbn [Pos.of_uint Z.of_N]; rewrite <- (digits_value_acc d _ rest Hr);
    reflexivity.
Qed.

Lemma digits_value_uint (d : Decimal.uint) (rest : string) :
  starts_with_digit rest = false -> d <> Decimal.Nil ->
  digits_value None (NilEmpty.string_of_uint d ++ rest)
  = Some (Z.of_N (Pos.of_uint d)).
Proof.
  intros Hr Hd. rewrite <- (digits_value_from_zero d rest Hr).
  destruct d; [contradiction | reflexivity ..].
Qed.

Lemma parseInt_uint (d : Decimal.uint) (rest : string) :
  starts_with_digit rest = false -> d <> Decimal.Nil ->
  parseInt (NilEmpty.string_of_uint d ++ rest) = Some (Z.of_N (Pos.of_uint d)).
Proof.
  intros Hr Hd. rewrite <- (digits_value_uint d rest Hr Hd).
  destruct d; [contradiction | reflexivity ..].
Qed.

Lemma parseInt_minus (r : string) :
  parseInt (String "-" r) = option_map Z.opp (digits_value None r).
Proof. reflexivity. Qed.

Lemma parseInt_decimal (n : Z) (rest : string) :
  starts_with_digit rest = false -> parseInt (Z_to_string n ++ rest) = Some n.
Proof.
  intros Hr. unfold Z_to_string. destruct n as [|p|p]; cbn [Z.to_int].
  - exact (parseInt_uint (Decimal.D0 Decimal.Nil) rest Hr ltac:(discriminate)).
  - cbn [NilZero.string_of_int]. unfold NilZero.string_of_uint.
    pose proof (Unsigned.to_uint_nonnil p) as Hp.
    pose proof (Unsigned.of_to p) as Hof.
    destruct (Pos.to_uint p) eqn:E; [contradiction | ..];
      rewrite parseInt_uint by (auto; discriminate); rewrite Hof; reflexivity.
  - cbn [NilZero.string_of_int]. unfold NilZero.string_of_uint.
    pose proof (Unsigned.to_uint_nonnil p) as Hp.
    pose proof (Unsigned.of_to p) as Hof.
    destruct (Pos.to_uint p) eqn:E; [contradiction | ..];
      cbn [append]; rewrite parseInt_minus;
      rewrite digits_value_uint by (auto; discriminate); rewrite Hof; reflexivity.
Qed.

Lemma Z_to_string_nonempty (n : Z) (rest : string) : Z_to_string n ++ rest <> "".
Proof.
  unfold Z_to_string. destruct n as [|p|p]; cbn [Z.to_int NilZero.string_of_int];
    unfold NilZero.string_of_uint.
  - discriminate.
  - pose proof (Unsigned.to_uint_nonnil p).
    destruct (Pos.to_uint p); [contradiction | discriminate ..].
  - discriminate.
Qed.

Lemma window_decimal (hi : Z) (dflt : string) (n : Z) (rest : string) :
  starts_with_digit rest = false ->
  window hi dflt (JStr (Z_to_string n ++ rest)) = Some (clamp 1 hi n).
Proof.
  intros Hr. unfold window.
  rewrite js_or_truthy by (apply truthy_nonempty, Z_to_string_nonempty).
  cbn [ToString]. rewrite (parseInt_decimal n rest Hr). reflexivity.
Qed.

(** X5: when [days] (or [hours]) is the decimal writing of an integer [n],
    possibly followed by text that does not start with a digit, the window
    is [n] brought into 1..60 (or 1..168): [n] itself when it is in range,
    the nearest bound otherwise. *)
Theorem decimal_window_is_clamped :
  forall (n : Z) (rest : string),
    starts_with_digit rest = false ->
    reliefweb_days (JObj [("days", JStr (Z_to_string n ++ rest))])
    = Some (clamp 1 60 n)
    /\ gdelt_hours (JObj [("hours", JStr (Z_to_string n ++ rest))])
       = Some (clamp 1 168 n)
    /\ 1 <= clamp 1 60 n <= 60 /\ 1 <= clamp 1 168 n <= 168
    /\ (1 <= n <= 60 -> clamp 1 60 n = n)
    /\ (1 <= n <= 168 -> clamp 1 168 n = n).
Proof.
  intros n rest Hr. split; [|split].
  - exact (window_decimal 60 "21" n rest Hr).
  - exact (window_decimal 168 "24" n rest Hr).
  - unfold clamp. lia.
Qed.

(** X4: for every query the window is either [NaN] or an integer within
    its bounds (1..60 days, 1..168 hours), and a parameter that is absent or
    empty (falsy) gives the default, 21 days or 24 hours. *)
Theorem windows_are_in_range_or_NaN :
  forall (query : JsVal),
    (reliefweb_days query = None
     \/ exists n, reliefweb_days query = Some n /\ 1 <= n <= 60)
    /\ (gdelt_hours query = None
        \/ exists n, gdelt_hours query = Some n /\ 1 <= n <= 168)
    /\ (truthy (prop query "days") = false -> reliefweb_days query = Some 21)
    /\ (truthy (prop query "hours") = false -> gdelt_hours query = Some 24).
Proof.
  intros query. split; [|split; [|split]].
  - destruct (reliefweb_days query) as [n|] eqn:E; [right | left; reflexivity].
    exists n. split; [reflexivity|]. apply (window_in_range 60 "21" (prop query "days") n); [lia | exact E].
  - destruct (gdelt_hours query) as [n|] eqn:E; [right | left; reflexivity].
    exists n. split; [reflexivity|]. apply (window_in_range 168 "24" (prop query "hours") n); [lia | exact E].
  - intros H. unfold reliefweb_days, window, js_or. rewrite H. reflexivity.
  - intros H. unfold gdelt_hours, window, js_or. rewrite H. reflexivity.
Qed.

(** ** The query sent to the news upstream *)

Lemma hex_digit_unreserved (k : nat) : (k < 16)%nat -> uri_unreserved (hex_digit k) = true.
Proof.
  intros H. do 16 (destruct k as [|k]; [reflexivity|]). lia.
Qed.

Lemma encodeURIComponent_cons (c : ascii) (r : string) :
  encodeURIComponent (String c r)
  = if uri_unreserved c then String c (encodeURIComponent r)
    else String "%" (String (hex_digit (Nat.div (nat_of_ascii c) 16))
                       (String (hex_digit (Nat.modulo (nat_of_ascii c) 16))
                          (encodeURIComponent r))).
Proof. reflexivity. Qed.

Lemma encodeURIComponent_safe (s : string) : url_safe (encodeURIComponent s) = true.
Proof.
  induction s as [|c r IH]; [reflexivity|]. rewrite encodeURIComponent_cons.
  destruct (uri_unreserved c) eqn:E.
  - cbn [url_safe]. rewrite E, IH. reflexivity.
  - pose proof (nat_ascii_bounded c) as Hb.
    cbn [url_safe]. rewrite IH.
    rewrite !hex_digit_unreserved;
      first [ reflexivity
            | apply Nat.mod_upper_bound; lia
            | apply Nat.Div0.div_lt_upper_bound; lia ].
Qed.

Lemma url_safe_has_char (c : ascii) (s : string) :
  url_safe s = true -> uri_unreserved c = false -> Ascii.eqb c "%" = false ->
  has_char c s = false.
Proof.
  intros Hs Hc Hp. induction s as [|a r IH]; [reflexivity|].
  cbn [url_safe] in Hs. apply andb_true_iff in Hs as [Ha Hr].
  cbn [has_char]. rewrite (IH Hr), orb_false_r.
  destruct (Ascii.eqb a c) eqn:E; [|reflexivity].
  apply Ascii.eqb_eq in E. subst a. rewrite Hc, Hp in Ha. discriminate.
Qed.

Lemma hex_digit_inj (a b : nat) :
  (a < 16)%nat -> (b < 16)%nat -> hex_digit a = hex_digit b -> a = b.
Proof.
  intros Ha Hb H. apply (f_equal nat_of_ascii) in H. unfold hex_digit in H.
  destruct (Nat.ltb a 10) eqn:Ea; destruct (Nat.ltb b 10) eqn:Eb;
    rewrite !nat_ascii_embedding in H by lia;
    try apply Nat.ltb_lt in Ea; try apply Nat.ltb_lt in Eb;
    try apply Nat.ltb_ge in Ea; try apply Nat.ltb_ge in Eb; lia.
Qed.

Lemma encodeURIComponent_inj (s1 s2 : string) :
  encodeURIComponent s1 = encodeURIComponent s2 -> s1 = s2.
Proof.
  revert s2. induction s1 as [|c1 r1 IH]; intros [|c2 r2];
    rewrite ?encodeURIComponent_cons; change (encodeURIComponent "") with "".
  - reflexivity.
  - destruct (uri_unreserved c2); discriminate.
  - destruct (uri_unreserved c1); discriminate.
  - destruct (uri_unreserved c1) eqn:E1; destruct (uri_unreserved c2) eqn:E2; intros H.
    + injection H as -> H. rewrite (IH _ H). reflexivity.
    + injection H as -> _. discriminate.
    + injection H as <- _. discriminate.
    + assert (Hhi : hex_digit (Nat.div (nat_of_ascii c1) 16)
                    = hex_digit (Nat.div (nat_of_ascii c2) 16)) by congruence.
      assert (Hlo : hex_digit (Nat.modulo (nat_of_ascii c1) 16)
                    = hex_digit (Nat.modulo (nat_of_ascii c2) 16)) by congruence.
      assert (Hr : encodeURIComponent r1 = encodeURIComponent r2) by congruence.
      clear H. rename Hr into H.
      pose proof (nat_ascii_bounded c1) as B1. pose proof (nat_ascii_bounded c2) as B2.
      apply hex_digit_inj in Hhi;
        [| apply Nat.Div0.div_lt_upper_bound; lia | apply Nat.Div0.div_lt_upper_bound; lia].
      apply hex_digit_inj in Hlo;
        [| apply Nat.mod_upper_bound; lia | apply Nat.mod_upper_bound; lia].
      assert (Hn : nat_of_ascii c1 = nat_of_ascii c2).
      { rewrite (Nat.div_mod_eq (nat_of_ascii c1) 16),
                (Nat.div_mod_eq (nat_of_ascii c2) 16). congruence. }
      apply (f_equal ascii_of_nat) in Hn. rewrite !ascii_nat_embedding in Hn.
      subst c2. rewrite (IH _ H). reflexivity.
Qed.

(** X15: in the URL sent to the news upstream the client's [q] appears
    percent-encoded, made only of unreserved characters and ["%"]; it holds
    none of [& = # ? / +] or space, so it cannot add or change a parameter
    of the request.  The time span is [NaN] or the decimal writing of a
    number within 1..168. *)
Theorem gdelt_query_cannot_alter_the_url :
  forall (query : JsVal),
    exists enc h,
      url (gdelt_request query)
      = "https://api.gdeltproject.org/api/v2/doc/doc?query=" ++ enc
        ++ "&mode=ArtList&maxrecords=50&format=json&TIMESPAN=" ++ h ++ "HRS"
      /\ enc = encodeURIComponent (ToString (js_or (prop query "q") (JStr gdelt_default_q)))
      /\ url_safe enc = true
      /\ Forall (fun c => has_char c enc = false)
                ["&"; "="; "#"; "?"; "/"; "+"; " "]%char
      /\ (h = "NaN" \/ exists n, 1 <= n <= 168 /\ h = Z_to_string n).
Proof.
  intros query.
  exists (encodeURIComponent (ToString (js_or (prop query "q") (JStr gdelt_default_q)))),
         (Number_toString (gdelt_hours query)).
  pose proof (encodeURIComponent_safe
                (ToString (js_or (prop query "q") (JStr gdelt_default_q)))) as Hs.
  split; [reflexivity|]. split; [reflexivity|]. split; [exact Hs|]. split.
  - repeat constructor; apply url_safe_has_char; auto.
  - destruct (gdelt_hours query) as [n|] eqn:E; [right | left; reflexivity].
    exists n. split; [|reflexivity].
    apply (window_in_range 168 "24" (prop query "hours") n); [lia | exact E].
Qed.

Lemma length_append (a b : string) :
  String.length (a ++ b) = (String.length a + String.length b)%nat.
Proof. induction a as [|c a IH]; simpl; [reflexivity | rewrite IH; reflexivity]. Qed.

Lemma append_inv_tail (a b t : string) : a ++ t = b ++ t -> a = b.
Proof.
  revert b. induction a as [|c a IH]; intros [|d b]; simpl; intros H.
  - reflexivity.
  - apply (f_equal String.length) in H. simpl in H. rewrite length_append in H. lia.
  - apply (f_equal String.length) in H. simpl in H. rewrite length_append in H. lia.
  - injection H as -> H. rewrite (IH _ H). reflexivity.
Qed.

Lemma append_inv_head (p a b : string) : p ++ a = p ++ b -> a = b.
Proof. induction p as [|c p IH]; simpl; intros H; [exact H|]. injection H as H. auto. Qed.

(** X16: with the same [hours], two different non-empty [q] give two
    different upstream URLs: the URL determines the query. *)
Theorem gdelt_url_determines_the_query :
  forall (q1 q2 : string) (hours : JsVal),
    q1 <> "" -> q2 <> "" ->
    url (gdelt_request (JObj [("q", JStr q1); ("hours", hours)]))
    = url (gdelt_request (JObj [("q", JStr q2); ("hours", hours)])) ->
    q1 = q2.
Proof.
  intros q1 q2 hours H1 H2 H. unfold gdelt_request in H. cbn [url] in H.
  change (gdelt_hours (JObj [("q", JStr q1); ("hours", hours)]))
    with (window 168 "24" hours) in H.
  change (gdelt_hours (JObj [("q", JStr q2); ("hours", hours)]))
    with (window 168 "24" hours) in H.
  change (prop (JObj [("q", JStr q1); ("hours", hours)]) "q") with (JStr q1) in H.
  change (prop (JObj [("q", JStr q2); ("hours", hours)]) "q") with (JStr q2) in H.
  rewrite !js_or_truthy in H by (apply truthy_nonempty; assumption).
  cbn [ToString] in H.
  apply append_inv_head in H. apply append_inv_tail in H.
  apply encodeURIComponent_inj. exact H.
Qed.

(** ** The allowed origins *)

Lemma split_comma_nonempty (s : string) : split_comma s <> [].
Proof.
  induction s as [|c r IH]; simpl; [discriminate|].
  destruct (is_comma c); [discriminate|].
  destruct (split_comma r); discriminate.
Qed.











(** ** The travel-advice endpoint on a document *)

(** X14: on a 2xx response whose JSON document is not [null] the
    travel-advice endpoint answers with exactly one item: id "govuk:za",
    severity 3, summary the first truthy of [details.change_description],
    [details.summary], "Travel advice", and timestamp the first truthy of
    [details.latest_update.published], [public_updated_at], the clock. *)
Theorem gov_uk_emits_one_item :
  forall (now : Z) (net : Request -> Upstream (option JsVal))
         (code : Z) (data : JsVal),
    net gov_uk_request = Response code (Some data) ->
    200 <= code <= 299 ->
    nullish data = false ->
    let d := js_or (prop data "details") (JObj []) in
    exists it,
      gov_uk_za now net = {| status := 200; body := [it] |}
      /\ id it = JStr "govuk:za"
      /\ severity it = JNum 3
      /\ summary it = js_or (js_or (prop d "change_description") (prop d "summary"))
                            (JStr "Travel advice")
      /\ ts it = js_or (js_or (prop (js_or (prop d "latest_update") (JObj []))
                                    "published")
                              (prop data "public_updated_at"))
                       (JStr (toISOString now)).
Proof.
  intros now net code data Hnet Hcode Hdata.
  apply gov_uk_one_item; [|exact Hdata].
  rewrite Hnet. unfold getJson, res_ok.
  replace ((200 <=? code) && (code <=? 299))%bool with true; [reflexivity|].
  symmetry. apply andb_true_iff. split; apply Z.leb_le; lia.
Qed.

Ltac get_all :=
  repeat match goal with
         | H : get _ _ = Ok _ |- _ =>
             let Hn := fresh "Hn" in
             apply get_ok in H; destruct H as [Hn H]
         end.

Ltac item_eq H :=
  rewrite item_obj in H; injection H as H; subst; cbn.

(** ** The bounded fetcher, read as a specification *)

(** X1: [getJson] returns a value exactly when the upstream answered with
    a status between 200 and 299 and a body that is JSON, and the value is
    that body; [getText] returns a text exactly when the status is between
    200 and 299, and the text is the body.  Every other outcome throws. *)
Theorem fetchers_succeed_on_2xx_only :
  forall (upj : Upstream (option JsVal)) (upt : Upstream string)
         (v : JsVal) (t : string),
    (getJson upj = Ok v <->
     exists code, 200 <= code <= 299 /\ upj = Response code (Some v))
    /\ (getText upt = Ok t <->
        exists code, 200 <= code <= 299 /\ upt = Response code t).
Proof.
  intros upj upt v t.
  assert (Hr : forall code, res_ok code = true <-> 200 <= code <= 299).
  { intros code. unfold res_ok. rewrite andb_true_iff, !Z.leb_le. tauto. }
  split; split.
  - destruct upj as [| |code content]; simpl; try discriminate.
    destruct (res_ok code) eqn:E; simpl; [|discriminate].
    destruct content as [w|]; [|discriminate].
    intros H. injection H as ->. exists code. split; [apply Hr; exact E | reflexivity].
  - intros (code & Hc & ->). simpl. apply Hr in Hc. rewrite Hc. reflexivity.
  - destruct upt as [| |code content]; simpl; try discriminate.
    destruct (res_ok code) eqn:E; simpl; [|discriminate].
    intros H. injection H as ->. exists code. split; [apply Hr; exact E | reflexivity].
  - intros (code & Hc & ->). simpl. apply Hr in Hc. rewrite Hc. reflexivity.
Qed.

(** X2: the classifier answers (with 3, 4 or 5) on [undefined] and on
    every string, and throws a [TypeError] on every other value ([null],
    booleans, numbers, arrays, objects): the default parameter replaces
    [undefined] only. *)
Theorem kwSeverity_domain :
  forall v : JsVal,
    match v with
    | JUndefined | JStr _ => exists n, kwSeverity v = Ok n /\ 3 <= n <= 5
    | _ => kwSeverity v = Throw TypeError
    end.
Proof.
  intros v. destruct v; try reflexivity.
  - exists 3. split; [reflexivity | lia].
  - destruct (kwSeverity (JStr s)) as [n|e] eqn:E.
    + exists n. split; [reflexivity|]. apply (kwSeverity_range _ _ E).
    + rewrite kwSeverity_string in E. discriminate.
Qed.

Section Coverage.

Variable parseXml : string -> Result JsVal.
Variable Date_parse : string -> option Z.

Lemma toLowerCase_app (a b : string) :
  toLowerCase (a ++ b) = toLowerCase a ++ toLowerCase b.
Proof. induction a as [|c a IH]; simpl; [reflexivity | rewrite IH; reflexivity]. Qed.

Lemma append_assoc (a b c : string) : (a ++ b) ++ c = a ++ (b ++ c).
Proof. induction a as [|x a IH]; simpl; [reflexivity | rewrite IH; reflexivity]. Qed.

Lemma contains_app_l (a b w : string) : contains a w -> contains (a ++ b) w.
Proof.
  intros (pre & post & ->). exists pre, (post ++ b).
  rewrite !append_assoc. reflexivity.
Qed.

Lemma contains_app_r (a b w : string) : contains b w -> contains (a ++ b) w.
Proof.
  intros (pre & post & ->). exists (a ++ pre), post.
  rewrite !append_assoc. reflexivity.
Qed.

Lemma mentions_app_l (words : list string) (a b : string) :
  mentions words a -> mentions words (a ++ b).
Proof.
  intros (w & Hin & H). exists w. split; [exact Hin|].
  unfold ci_contains in *. rewrite toLowerCase_app. apply contains_app_l. exact H.
Qed.

Lemma mentions_app_r (words : list string) (a b : string) :
  mentions words b -> mentions words (a ++ b).
Proof.
  intros (w & Hin & H). exists w. split; [exact Hin|].
  unfold ci_contains in *. rewrite toLowerCase_app. apply contains_app_r. exact H.
Qed.

Lemma violent_words_lower : Forall (fun w => toLowerCase w = w) violent_words.
Proof. repeat constructor. Qed.

Lemma unrest_words_lower : Forall (fun w => toLowerCase w = w) unrest_words.
Proof. repeat constructor. Qed.

Lemma gdelt_item_severity (now : Z) (a : JsVal) (it : Item) :
  gdelt_item Date_parse now a = Ok it ->
  exists n,
    severity it = JNum n
    /\ kwSeverity (JStr (ToString (prop a "title") ++ " " ++ ToString (prop a "url")))
       = Ok n.
Proof.
  unfold gdelt_item. intros H. bind_inv. get_all.
  match goal with Hk : kwSeverity _ = Ok ?n |- _ => exists n; subst; split; [|exact Hk] end.
  item_eq H. reflexivity.
Qed.

(** X3: the severity of a news item reads both the title and the url of its
    article: it is 5 as soon as either mentions, in any letter case, one of
    the words of the first list, at least 4 as soon as either mentions one
    of the second list, and 3 only when neither mentions any of them. *)
Theorem gdelt_severity_reads_title_and_url :
  forall (now : Z) (a : JsVal) (it : Item),
    gdelt_item Date_parse now a = Ok it ->
    let title' := ToString (prop a "title") in
    let url' := ToString (prop a "url") in
    (mentions violent_words title' \/ mentions violent_words url' ->
     severity it = JNum 5)
    /\ (mentions unrest_words title' \/ mentions unrest_words url' ->
        severity it = JNum 4 \/ severity it = JNum 5)
    /\ (severity it = JNum 3 ->
        ~ mentions violent_words title' /\ ~ mentions unrest_words title'
        /\ ~ mentions violent_words url' /\ ~ mentions unrest_words url').
Proof.
  intros now a it H title' url'.
  destruct (gdelt_item_severity now a it H) as (n & Hn & Hk).
  fold title' url' in Hk. rewrite kwSeverity_string in Hk.
  pose proof (test_any_mentions violent_words (title' ++ " " ++ url')
                                violent_words_lower) as Ev.
  pose proof (test_any_mentions unrest_words (title' ++ " " ++ url')
                                unrest_words_lower) as Eu.
  assert (Hv : mentions violent_words title' \/ mentions violent_words url' ->
               test_any violent_words (toLowerCase (title' ++ " " ++ url')) = true).
  { intros [Hm | Hm]; apply Ev.
    - apply mentions_app_l. exact Hm.
    - apply mentions_app_r, mentions_app_r. exact Hm. }
  assert (Hu : mentions unrest_words title' \/ mentions unrest_words url' ->
               test_any unrest_words (toLowerCase (title' ++ " " ++ url')) = true).
  { intros [Hm | Hm]; apply Eu.
    - apply mentions_app_l. exact Hm.
    - apply mentions_app_r, mentions_app_r. exact Hm. }
  rewrite Hn.
  set (T := title' ++ " " ++ url') in *.
  assert (Hk' : n = if test_any violent_words (toLowerCase T) then 5
                    else if test_any unrest_words (toLowerCase T) then 4 else 3)
    by congruence.
  clear Hk. split; [|split].
  - intros Hm. rewrite (Hv Hm) in Hk'. subst n. reflexivity.
  - intros Hm. rewrite (Hu Hm) in Hk'.
    destruct (test_any violent_words (toLowerCase T)); subst n; auto.
  - intros H3. assert (n = 3) by congruence. subst n.
    destruct (test_any violent_words (toLowerCase T)); [discriminate|].
    destruct (test_any unrest_words (toLowerCase T)); [discriminate|].
    repeat split; intros Hm.
    + specialize (Hv (or_introl Hm)). discriminate.
    + specialize (Hu (or_introl Hm)). discriminate.
    + specialize (Hv (or_intror Hm)). discriminate.
    + specialize (Hu (or_intror Hm)). discriminate.
Qed.

(** ** What every emitted item carries *)

Lemma gov_uk_adapt_coords (now : Z) (data : JsVal) (out : list Item) :
  gov_uk_adapt now data = Ok out ->
  exists it, out = [it] /\ lat it = JUndefined /\ lng it = JUndefined.
Proof.
  unfold gov_uk_adapt. intros H. bind_inv.
  match goal with Hi : item _ = Ok _ |- _ => rewrite item_obj in Hi; injection Hi as Hi end.
  subst. eexists. split; [reflexivity|]. cbn. auto.
Qed.

Lemma us_travel_item_tags (now : Z) (x : JsVal) (it : Item) :
  us_travel_item Date_parse now x = Ok it ->
  (exists r, id it = JStr ("us:travel:" ++ r))
  /\ source it = JStr "travel.state.gov"
  /\ lat it = JUndefined /\ lng it = JUndefined
  /\ (exists descr, summary it = JStr (slice0 280 (strip_tags descr)))
  /\ date_iso Date_parse now (entry_date x) = Ok (ToString (ts it)).
Proof.
  unfold us_travel_item. intros H. bind_inv. get_all. fold (entry_date x) in *.
  item_eq H. repeat split; eauto.
Qed.

Lemma reliefweb_item_tags (d : JsVal) (it : Item) :
  reliefweb_item d = Ok it ->
  id it = JStr ("rw:" ++ ToString (prop d "id"))
  /\ source it = JStr "reliefweb"
  /\ lat it = JUndefined /\ lng it = JUndefined.
Proof.
  unfold reliefweb_item. intros H. bind_inv. get_all. item_eq H. repeat split.
Qed.

Lemma gdelt_item_tags (now : Z) (a : JsVal) (it : Item) :
  gdelt_item Date_parse now a = Ok it ->
  id it = JStr ("gdelt:" ++ ToString (js_or (prop a "url") (prop a "title")))
  /\ source it = JStr "gdelt"
  /\ lat it = JUndefined /\ lng it = JUndefined
  /\ date_iso Date_parse now (article_date a) = Ok (ToString (ts it)).
Proof.
  unfold gdelt_item. intros H. bind_inv. get_all. fold (article_date a) in *.
  item_eq H. repeat split; eauto.
Qed.

(** X11: every item carries the source tag of its endpoint and an id that
    starts with its endpoint's prefix (the fixed "govuk:za", "us:travel:",
    "rw:", "gdelt:"), so two items of different endpoints never have the
    same id. *)
Theorem ids_and_sources_identify_the_endpoint :
  forall (now : Z) (query : JsVal)
         (netj : Request -> Upstream (option JsVal))
         (nett : Request -> Upstream string),
    let G := body (gov_uk_za now netj) in
    let U := body (us_travel parseXml Date_parse now nett) in
    let R := body (reliefweb_za query netj) in
    let D := body (gdelt Date_parse now query netj) in
    (forall it, In it G -> id it = JStr "govuk:za" /\ source it = JStr "gov.uk")
    /\ (forall it, In it U ->
                   (exists r, id it = JStr ("us:travel:" ++ r))
                   /\ source it = JStr "travel.state.gov")
    /\ (forall it, In it R ->
                   (exists r, id it = JStr ("rw:" ++ r))
                   /\ source it = JStr "reliefweb")
    /\ (forall it, In it D ->
                   (exists r, id it = JStr ("gdelt:" ++ r))
                   /\ source it = JStr "gdelt")
    /\ (forall it1 it2,
           (In it1 G /\ (In it2 U \/ In it2 R \/ In it2 D))
           \/ (In it1 U /\ (In it2 R \/ In it2 D))
           \/ (In it1 R /\ In it2 D) ->
           id it1 <> id it2).
Proof.
  intros now query netj nett G U R D.
  assert (HG : forall it, In it G -> id it = JStr "govuk:za" /\ source it = JStr "gov.uk").
  { intros it H. apply gov_uk_za_In in H as (data & H).
    apply gov_uk_adapt_shape in H as (it' & E & Hi & Hs & _).
    injection E as <-. auto. }
  assert (HU : forall it, In it U ->
                          (exists r, id it = JStr ("us:travel:" ++ r))
                          /\ source it = JStr "travel.state.gov").
  { intros it H. apply us_travel_In in H as (x & _ & H).
    apply us_travel_item_tags in H as (Hi & Hs & _). auto. }
  assert (HR : forall it, In it R ->
                          (exists r, id it = JStr ("rw:" ++ r))
                          /\ source it = JStr "reliefweb").
  { intros it H. apply reliefweb_za_In in H as (d & H).
    apply reliefweb_item_tags in H as (Hi & Hs & _). eauto. }
  assert (HD : forall it, In it D ->
                          (exists r, id it = JStr ("gdelt:" ++ r))
                          /\ source it = JStr "gdelt").
  { intros it H. apply gdelt_In in H as (a & H).
    apply gdelt_item_tags in H as (Hi & Hs & _). eauto. }
  split; [exact HG|]. split; [exact HU|]. split; [exact HR|]. split; [exact HD|].
  intros it1 it2 H E.
  destruct H as [[H1 [H2 | [H2 | H2]]] | [[H1 [H2 | H2]] | [H1 H2]]];
    repeat match goal with
           | Hin : In _ G |- _ => apply HG in Hin as [? _]
           | Hin : In _ U |- _ => apply HU in Hin as [[? ?] _]
           | Hin : In _ R |- _ => apply HR in Hin as [[? ?] _]
           | Hin : In _ D |- _ => apply HD in Hin as [[? ?] _]
           end;
    congruence || (rewrite E in *; simpl in *; congruence).
Qed.

(** X10: no adapter fills in the coordinates: [lat] and [lng] are
    [undefined] on every item of every endpoint. *)
Theorem coordinates_are_never_populated :
  forall (now : Z) (query : JsVal)
         (netj : Request -> Upstream (option JsVal))
         (nett : Request -> Upstream string) (it : Item),
    In it (body (gov_uk_za now netj))
    \/ In it (body (us_travel parseXml Date_parse now nett))
    \/ In it (body (reliefweb_za query netj))
    \/ In it (body (gdelt Date_parse now query netj)) ->
    lat it = JUndefined /\ lng it = JUndefined.
Proof.
  intros now query netj nett it [H | [H | [H | H]]].
  - apply gov_uk_za_In in H as (data & H).
    apply gov_uk_adapt_coords in H as (it' & E & Hl). injection E as <-. exact Hl.
  - apply us_travel_In in H as (x & _ & H).
    apply us_travel_item_tags in H as (_ & _ & H1 & H2 & _). auto.
  - apply reliefweb_za_In in H as (d & H).
    apply reliefweb_item_tags in H as (_ & _ & H1 & H2). auto.
  - apply gdelt_In in H as (a & H).
    apply gdelt_item_tags in H as (_ & _ & H1 & H2 & _). auto.
Qed.

(** X8: whatever the upstream answers, the travel-advice endpoint answers
    with at most one item and the RSS endpoint with at most five. *)
Theorem response_size_bounds :
  forall (now : Z) (netj : Request -> Upstream (option JsVal))
         (nett : Request -> Upstream string),
    (List.length (body (gov_uk_za now netj)) <= 1)%nat
    /\ (List.length (body (us_travel parseXml Date_parse now nett)) <= 5)%nat.
Proof.
  intros now netj nett. split.
  - unfold gov_uk_za.
    destruct (data <- getJson (netj gov_uk_request) ;; gov_uk_adapt now data)
      as [out|e] eqn:E; simpl; [|lia].
    bind_inv. apply gov_uk_adapt_shape in E as (it & -> & _). simpl. lia.
  - unfold us_travel.
    destruct (xml <- getText (nett us_travel_request) ;;
              j <- parseXml xml ;; us_travel_adapt Date_parse now j)
      as [out|e] eqn:E; simpl; [|lia].
    bind_inv. unfold us_travel_adapt in E. bind_inv. subst out.
    apply (firstn_le_length 5).
Qed.

(** X9: the situation-reports and news endpoints answer with all or
    nothing: the response is either empty or holds, in upstream order,
    exactly one item per record of the fetched document, each built from
    its record.  No record is skipped and no cap is applied by the
    handlers. *)
Theorem record_lists_are_mapped_whole :
  forall (now : Z) (query : JsVal) (net : Request -> Upstream (option JsVal)),
    (body (reliefweb_za query net) = []
     \/ exists data,
         getJson (net (reliefweb_request (reliefweb_days query))) = Ok data
         /\ Forall2 (fun d it => reliefweb_item d = Ok it)
                    (elems_of (js_or (optget data "data") (JArr [])))
                    (body (reliefweb_za query net)))
    /\ (body (gdelt Date_parse now query net) = []
        \/ exists data,
            getJson (net (gdelt_request query)) = Ok data
            /\ Forall2 (fun a it => gdelt_item Date_parse now a = Ok it)
                       (elems_of (js_or (optget data "articles") (JArr [])))
                       (body (gdelt Date_parse now query net))).
Proof.
  intros now query net. split.
  - unfold reliefweb_za. cbv zeta.
    destruct (getJson (net (reliefweb_request (reliefweb_days query))))
      as [data|e] eqn:E; [|left; reflexivity].
    cbn [bind]. unfold reliefweb_adapt.
    destruct (as_array (js_or (optget data "data") (JArr []))) as [l|e] eqn:Ea;
      [|left; reflexivity].
    cbn [bind]. destruct (mapM reliefweb_item l) as [out|e] eqn:Em;
      [|left; reflexivity].
    right. exists data. split; [reflexivity|].
    apply as_array_ok in Ea. rewrite Ea. cbn [elems_of try_catch res_json body].
    apply mapM_Forall2. exact Em.
  - unfold gdelt.
    destruct (getJson (net (gdelt_request query))) as [data|e] eqn:E;
      [|left; reflexivity].
    cbn [bind]. unfold gdelt_adapt.
    destruct (as_array (js_or (optget data "articles") (JArr []))) as [l|e] eqn:Ea;
      [|left; reflexivity].
    cbn [bind]. destruct (mapM (gdelt_item Date_parse now) l) as [out|e] eqn:Em;
      [|left; reflexivity].
    right. exists data. split; [reflexivity|].
    apply as_array_ok in Ea. rewrite Ea. cbn [elems_of try_catch res_json body].
    apply mapM_Forall2. exact Em.
Qed.

(** X13: the timestamp of an RSS item or of a news item is the ISO
    rendering of the clock reading when its record has no date (the date
    is falsy), and of the record's date as the Date constructor reads it
    otherwise. *)
Theorem timestamp_is_the_record_date_or_the_clock :
  forall (now : Z) (v : JsVal) (it : Item),
    (exists x, us_travel_item Date_parse now x = Ok it /\ v = entry_date x)
    \/ (exists a, gdelt_item Date_parse now a = Ok it /\ v = article_date a) ->
    (truthy v = false -> ts it = JStr (toISOString now))
    /\ (truthy v = true ->
        exists t, Date_new Date_parse v = Some t /\ ts it = JStr (toISOString t)).
Proof.
  intros now v it H.
  assert (Hd : exists s, ts it = JStr s /\ date_iso Date_parse now v = Ok s).
  { destruct H as [(x & H & ->) | (a & H & ->)].
    - pose proof (us_travel_item_shape Date_parse now x it H)
        as (i & t & s & _ & Ht & _).
      apply us_travel_item_tags in H as (_ & _ & _ & _ & _ & Hd).
      rewrite Ht in Hd. eauto.
    - pose proof (gdelt_item_shape Date_parse now a it H)
        as (i & t & n & _ & Ht & _).
      apply gdelt_item_tags in H as (_ & _ & _ & _ & Hd).
      rewrite Ht in Hd. eauto. }
  destruct Hd as (s & Hts & Hd). rewrite Hts. unfold date_iso in Hd.
  split; intros Hv; rewrite Hv in Hd.
  - congruence.
  - destruct (Date_new Date_parse v) as [t|]; [|discriminate].
    exists t. split; [reflexivity | congruence].
Qed.


(** X12: the severities each endpoint can emit: 3 only for travel advice
    and for RSS items, 3 or 4 for situation reports, 3, 4 or 5 for news
    items. *)
Theorem severity_by_endpoint :
  forall (now : Z) (query : JsVal)
         (netj : Request -> Upstream (option JsVal))
         (nett : Request -> Upstream string) (it : Item),
    (In it (body (gov_uk_za now netj)) -> severity it = JNum 3)
    /\ (In it (body (us_travel parseXml Date_parse now nett)) -> severity it = JNum 3)
    /\ (In it (body (reliefweb_za query netj)) ->
        severity it = JNum 3 \/ severity it = JNum 4)
    /\ (In it (body (gdelt Date_parse now query netj)) ->
        severity it = JNum 3 \/ severity it = JNum 4 \/ severity it = JNum 5).
Proof.
  intros now query netj nett it. split; [|split; [|split]]; intros H.
  - apply gov_uk_za_In in H as (data & H).
    apply gov_uk_adapt_shape in H as (it' & E & _ & _ & _ & Hn & _).
    injection E as <-. exact Hn.
  - apply us_travel_In in H as (x & _ & H).
    apply us_travel_item_shape in H as (i & t & s & _ & _ & _ & _ & _ & Hn & _).
    exact Hn.
  - apply reliefweb_za_In in H as (d & H).
    apply reliefweb_item_shape in H as (i & _ & _ & _ & _ & _ & Hn & _).
    rewrite Hn. destruct (test_any alarm_themes (toLowerCase (report_themes d))); auto.
  - apply gdelt_In in H as (a & H).
    apply gdelt_item_shape in H as (i & t & n & _ & _ & _ & _ & Hn & Hr & _).
    rewrite Hn. assert (n = 3 \/ n = 4 \/ n = 5) as [-> | [-> | ->]] by lia; auto.
Qed.

End Coverage.

(** ** The further properties on concrete inputs *)

Lemma gdelt_severity_reads_title_and_url_witness :
  gdelt_item epoch_dates 0 riot_article = Ok gdelt_sample_item
  /\ (severity gdelt_sample_item = JNum 4 \/ severity gdelt_sample_item = JNum 5).
Proof.
  split; [reflexivity|].
  pose proof (gdelt_severity_reads_title_and_url epoch_dates 0 riot_article
                gdelt_sample_item eq_refl) as H.
  cbv zeta in H. destruct H as (_ & H & _). apply H.
  left. unfold mentions. exists "riot". split; [simpl; tauto|].
  unfold ci_contains, contains. exists "", " in durban". reflexivity.
Defined.

Lemma decimal_window_is_clamped_witness :
  starts_with_digit "d" = false
  /\ reliefweb_days (JObj [("days", JStr "30d")]) = Some 30
  /\ gdelt_hours (JObj [("hours", JStr "30d")]) = Some 30.
Proof.
  split; [reflexivity|].
  destruct (decimal_window_is_clamped 30 "d" eq_refl) as (Hd & Hh & _).
  split; [exact Hd | exact Hh].
Defined.


Lemma coordinates_are_never_populated_witness :
  In gdelt_sample_item (body (gdelt epoch_dates 0 (JObj []) (serve (Some gdelt_doc))))
  /\ lat gdelt_sample_item = JUndefined /\ lng gdelt_sample_item = JUndefined.
Proof.
  assert (H : In gdelt_sample_item
                 (body (gdelt epoch_dates 0 (JObj []) (serve (Some gdelt_doc)))))
    by (vm_compute; left; reflexivity).
  split; [exact H|].
  apply (coordinates_are_never_populated (always_feed feed_8_3) epoch_dates 0
           (JObj []) (serve (Some gdelt_doc)) (serve "") gdelt_sample_item).
  right. right. right. exact H.
Defined.

Lemma timestamp_is_the_record_date_or_the_clock_witness :
  gdelt_item epoch_dates 0 riot_article = Ok gdelt_sample_item
  /\ (truthy (article_date riot_article) = false ->
      ts gdelt_sample_item = JStr (toISOString 0))
  /\ (truthy (article_date riot_article) = true ->
      exists t, Date_new epoch_dates (article_date riot_article) = Some t
                /\ ts gdelt_sample_item = JStr (toISOString t)).
Proof.
  split; [reflexivity|].
  apply (timestamp_is_the_record_date_or_the_clock epoch_dates 0
           (article_date riot_article) gdelt_sample_item).
  right. exists riot_article. split; reflexivity.
Defined.

Lemma gov_uk_emits_one_item_witness :
  exists it,
    gov_uk_za 0 (serve (Some (JObj []))) = {| status := 200; body := [it] |}
    /\ id it = JStr "govuk:za"
    /\ summary it = JStr "Travel advice"
    /\ ts it = JStr "1970-01-01T00:00:00.000Z".
Proof.
  destruct (gov_uk_emits_one_item 0 (serve (Some (JObj []))) 200 (JObj [])
              eq_refl ltac:(lia) eq_refl) as (it & Hr & Hi & _ & Hs & Ht).
  exists it. split; [exact Hr|]. split; [exact Hi|]. split; [exact Hs | exact Ht].
Defined.

Lemma gdelt_url_determines_the_query_witness :
  url (gdelt_request (JObj [("q", JStr "bomb"); ("hours", JStr "6")]))
  = url (gdelt_request (JObj [("q", JStr "bomb"); ("hours", JStr "6")]))
  /\ "bomb" = "bomb".
Proof.
  split; [reflexivity|].
  apply (gdelt_url_determines_the_query "bomb" "bomb" (JStr "6")).
  - discriminate.
  - discriminate.
  - reflexivity.
Defined.

